(** * Replica store and sync client of webxr-eye-paint

    A shallow embedding of the canvas replication core:
    - [PainterRoom] (painterroom.ts): the per-room durable store of
      the two eye canvases, with its conditional GET/HEAD/PUT/DELETE;
    - the worker entry point that routes a request to its room;
    - [SnapshotSync] and the part of [Painter] it talks to (the client):
      debounced push, poll and pull.

    Platform primitives are modelled next to the code that calls them:
    [crypto.subtle.digest('SHA-256', _)] by the FIPS 180-4 function,
    [window.setTimeout]/[clearTimeout] by a queue of pending timers,
    [fetch] by an effect of the client's task monad. *)

From Stdlib Require Import ZArith Ascii String Strings.Byte.
From stdpp Require Import gmap strings list.

Local Open Scope Z_scope.

(** ** SHA-256 (FIPS 180-4), the digest both sides call *)

Module SHA256.

Definition wrap (x : Z) : Z := x mod 2 ^ 32.
Definition add32 (x y : Z) : Z := wrap (x + y).
Definition rotr (n x : Z) : Z := Z.lor (Z.shiftr x n) (wrap (Z.shiftl x (32 - n))).
Definition not32 (x : Z) : Z := Z.lxor x (2 ^ 32 - 1).

Definition Ch (x y z : Z) : Z := Z.lxor (Z.land x y) (Z.land (not32 x) z).
Definition Maj (x y z : Z) : Z :=
  Z.lxor (Z.lxor (Z.land x y) (Z.land x z)) (Z.land y z).
Definition bsig0 (x : Z) : Z := Z.lxor (Z.lxor (rotr 2 x) (rotr 13 x)) (rotr 22 x).
Definition bsig1 (x : Z) : Z := Z.lxor (Z.lxor (rotr 6 x) (rotr 11 x)) (rotr 25 x).
Definition ssig0 (x : Z) : Z := Z.lxor (Z.lxor (rotr 7 x) (rotr 18 x)) (Z.shiftr x 3).
Definition ssig1 (x : Z) : Z := Z.lxor (Z.lxor (rotr 17 x) (rotr 19 x)) (Z.shiftr x 10).

(** The round constants are the first 32 fractional bits of the cube
    roots of the first 64 primes, the initial state those of the square
    roots of the first 8: both are computed here rather than tabulated. *)
Definition is_prime (n : Z) : bool :=
  forallb (fun d => negb (n mod d =? 0)) (map Z.of_nat (seq 2 (Z.to_nat n - 2))).

Definition primes : list Z :=
  Eval vm_compute in filter (fun n => is_prime n = true) (map Z.of_nat (seq 2 310)).

Definition icbrt (n : Z) : Z :=
  fold_left (fun r i => let r' := r + 2 ^ Z.of_nat i in
                        if r' * r' * r' <=? n then r' else r)
            (rev (seq 0 40)) 0.

Definition K : list Z :=
  Eval vm_compute in map (fun p => wrap (icbrt (p * 2 ^ 96))) primes.

Definition H0 : list Z :=
  Eval vm_compute in map (fun p => wrap (Z.sqrt (p * 2 ^ 64))) (take 8 primes).

(** Padding (5.1.1): 0x80, zero bytes up to 56 mod 64, then the bit length
    on 8 bytes, big endian. *)
Definition be_bytes (n : nat) (x : Z) : list Z :=
  map (fun i => Z.shiftr x (8 * Z.of_nat i) mod 256) (rev (seq 0 n)).

Definition pad (msg : list Z) : list Z :=
  let len := Z.of_nat (length msg) in
  msg ++ 128 :: repeat 0 (Z.to_nat ((55 - len) mod 64)) ++ be_bytes 8 (8 * len).

Fixpoint be_words (l : list Z) : list Z :=
  match l with
  | b0 :: b1 :: b2 :: b3 :: l' =>
      (Z.shiftl b0 24 + Z.shiftl b1 16 + Z.shiftl b2 8 + b3) :: be_words l'
  | _ => []
  end.

Fixpoint blocks (fuel : nat) (ws : list Z) : list (list Z) :=
  match fuel, ws with
  | S fuel', _ :: _ => take 16 ws :: blocks fuel' (drop 16 ws)
  | _, _ => []
  end.

(** Message schedule (6.2.2 step 1): [w] grows from 16 to 64 words. *)
Fixpoint schedule (n : nat) (w : list Z) : list Z :=
  match n with
  | O => w
  | S n' =>
      let t := length w in
      let at_ k := nth (t - k) w 0 in
      schedule n' (w ++ [add32 (add32 (add32 (ssig1 (at_ 2%nat)) (at_ 7%nat))
                                      (ssig0 (at_ 15%nat))) (at_ 16%nat)])
  end.

Record regs := Regs { ra : Z; rb : Z; rc : Z; rd : Z; re : Z; rf : Z; rg : Z; rh : Z }.

Definition round (s : regs) (kw : Z * Z) : regs :=
  let t1 := add32 (add32 (add32 (add32 (rh s) (bsig1 (re s))) (Ch (re s) (rf s) (rg s)))
                         (fst kw)) (snd kw) in
  let t2 := add32 (bsig0 (ra s)) (Maj (ra s) (rb s) (rc s)) in
  Regs (add32 t1 t2) (ra s) (rb s) (rc s) (add32 (rd s) t1) (re s) (rf s) (rg s).

Definition compress (h : regs) (block : list Z) : regs :=
  let s := fold_left round (zip K (schedule 48 block)) h in
  Regs (add32 (ra h) (ra s)) (add32 (rb h) (rb s)) (add32 (rc h) (rc s))
       (add32 (rd h) (rd s)) (add32 (re h) (re s)) (add32 (rf h) (rf s))
       (add32 (rg h) (rg s)) (add32 (rh h) (rh s)).

Definition init : regs :=
  match H0 with
  | [a; b; c; d; e; f; g; h] => Regs a b c d e f g h
  | _ => Regs 0 0 0 0 0 0 0 0
  end.

Definition to_byte (x : Z) : byte :=
  default x00 (Byte.of_N (Z.to_N (x mod 256))).

Definition out (s : regs) : list byte :=
  map to_byte (flat_map (be_bytes 4)
                 [ra s; rb s; rc s; rd s; re s; rf s; rg s; rh s]).

Definition digest (data : list byte) : list byte :=
  let ws := be_words (pad (map (fun b => Z.of_N (Byte.to_N b)) data)) in
  out (fold_left compress (blocks (length ws) ws) init).

End SHA256.

(** ** Lowercase hex of a digest, as both [hash] and [hashBlob] write it *)

Definition hexDigit (n : N) : ascii :=
  match n with
  | 0 => "0" | 1 => "1" | 2 => "2" | 3 => "3" | 4 => "4" | 5 => "5"
  | 6 => "6" | 7 => "7" | 8 => "8" | 9 => "9" | 10 => "a" | 11 => "b"
  | 12 => "c" | 13 => "d" | 14 => "e" | _ => "f"
  end%N%char.

(** [b.toString(16)] for a byte: one digit below 16, two otherwise. *)
Definition toString16 (b : byte) : string :=
  let n := Byte.to_N b in
  if (n <? 16)%N then String (hexDigit n) EmptyString
  else String (hexDigit (n / 16)) (String (hexDigit (n mod 16)) EmptyString).

(** [s.padStart(n, '0')] *)
Definition padStart (n : nat) (s : string) : string :=
  String.concat "" (repeat "0"%string (n - String.length s)) +:+ s.

(** [Array.from(bytes).map((b) => b.toString(16).padStart(2, '0')).join('')] *)
Definition hex (bytes : list byte) : string :=
  String.concat "" (map (fun b => padStart 2 (toString16 b)) bytes).

Definition bytes_of_string (s : string) : list byte :=
  map byte_of_ascii (list_ascii_of_string s).


(** ** Vocabulary shared by the worker and the client *)

(** [type Eye = 'left' | 'right'] *)
Inductive Eye := left_eye | right_eye.

Definition eye_name (e : Eye) : string :=
  match e with left_eye => "left" | right_eye => "right" end.

(** [Record<Eye, A>]: an object with exactly the two keys. *)
Record PerEye (A : Type) := mkPerEye { at_left : A; at_right : A }.
Arguments mkPerEye {A} _ _.
Arguments at_left {A} _.
Arguments at_right {A} _.

(** [r[eye]] *)
Definition get {A} (r : PerEye A) (e : Eye) : A :=
  match e with left_eye => at_left r | right_eye => at_right r end.

(** [r[eye] = v] *)
Definition set {A} (r : PerEye A) (e : Eye) (v : A) : PerEye A :=
  match e with
  | left_eye => mkPerEye v (at_right r)
  | right_eye => mkPerEye (at_left r) v
  end.

(** A request as the worker sees it: the URL already split into path and
    query pairs (in order), the one header the store reads, and the body. *)
Record Request := mkRequest {
  method : string;
  pathname : string;
  searchParams : list (string * string);
  if_none_match : option string;
  body : list byte
}.

(** [url.searchParams.get(name)]: the first value under [name], or null. *)
Fixpoint searchParams_get (name : string) (q : list (string * string)) : option string :=
  match q with
  | [] => None
  | (k, v) :: q' => if (k =? name)%string then Some v else searchParams_get name q'
  end.

(** Response headers the code sets or reads. [Last_Modified] keeps the
    instant whose [toUTCString()] the header carries. *)
Record Headers := mkHeaders {
  Cache_Control : option string;
  ETag : option string;
  Last_Modified : option Z;
  Content_Type : option string
}.

Definition no_headers : Headers := mkHeaders None None None None.

Record Response := mkResponse {
  status : Z;
  headers : Headers;
  payload : option (list byte)
}.

(** [res.ok] *)
Definition ok (r : Response) : bool := (200 <=? status r) && (status r <=? 299).

(** JavaScript truthiness of a [string | null]: null and '' are falsy. *)
Definition truthy (o : option string) : bool :=
  match o with
  | Some s => negb (s =? "")%string
  | None => false
  end.

(** ** The store: [PainterRoom] *)

Module PainterRoom.

(** [interface EyeState] *)
Record EyeState := mkEyeState {
  bytes : option (list byte);
  etag : option string;
  updatedAt : Z
}.

(** The object's field [eyes] and the durable storage's entry ['eyes']. *)
Record t := mk {
  eyes : PerEye EyeState;
  storage : option (PerEye EyeState)
}.

Definition initial_eyes : PerEye EyeState :=
  mkPerEye (mkEyeState None None 0) (mkEyeState None None 0).

(** A room nobody has written to yet. *)
Definition fresh : t := mk initial_eyes None.

(** The runtime discards the object and later constructs it again: the
    field is initialised anew, the storage stays. *)
Definition restart (r : t) : t := mk initial_eyes (storage r).

Definition hash (data : list byte) : string := hex (SHA256.digest data).

Definition load (r : t) : t :=
  match storage r with
  | Some saved => mk saved (storage r)
  | None => r
  end.

Definition persist (r : t) : t := mk (eyes r) (Some (eyes r)).

(** [!x] for [x : Uint8Array | null]: every array object is truthy. *)
Definition absent (b : option (list byte)) : bool :=
  match b with None => true | Some _ => false end.

Definition parse_eye (eyeParam : option string) : Eye :=
  match eyeParam with
  | Some p =>
      if (p =? "left")%string then left_eye
      else if (p =? "right")%string then right_eye
      else left_eye
  | None => left_eye
  end.

(** [fetch(req)], with the value [Date.now()] has during the call. *)
Definition fetch (req : Request) (now : Z) (r : t) : Response * t :=
  let eyeParam := searchParams_get "eye" (searchParams req) in
  let eye := parse_eye eyeParam in
  let r := if absent (bytes (at_left (eyes r))) && absent (bytes (at_right (eyes r)))
           then load r else r in
  if (method req =? "GET")%string || (method req =? "HEAD")%string then
    let s := get (eyes r) eye in
    let hd := mkHeaders (Some "no-store"%string) None None None in
    let hd := if truthy (etag s)
              then mkHeaders (Cache_Control hd) (etag s) (Last_Modified hd) (Content_Type hd)
              else hd in
    let hd := if negb (updatedAt s =? 0)
              then mkHeaders (Cache_Control hd) (ETag hd) (Some (updatedAt s)) (Content_Type hd)
              else hd in
    let inm := if_none_match req in
    if truthy inm && truthy (etag s) && bool_decide (inm = etag s)
    then (mkResponse 304 hd None, r)
    else if (method req =? "HEAD")%string then (mkResponse 200 hd None, r)
    else if absent (bytes s) then (mkResponse 204 hd None, r)
    else
      let hd := mkHeaders (Cache_Control hd) (ETag hd) (Last_Modified hd)
                          (Some "image/png"%string) in
      (mkResponse 200 hd (bytes s), r)
  else if (method req =? "PUT")%string then
    let buf := body req in
    let etag := hash buf in
    let r := mk (set (eyes r) eye (mkEyeState (Some buf) (Some etag) now)) (storage r) in
    let r := persist r in
    (mkResponse 204 (mkHeaders None (Some etag) None None) None, r)
  else if (method req =? "DELETE")%string then
    let r := mk (set (eyes r) eye (mkEyeState None None now)) (storage r) in
    let r := persist r in
    (mkResponse 204 no_headers None, r)
  else
    (mkResponse 405 no_headers (Some (bytes_of_string "Method not allowed")), r).

End PainterRoom.

(** ** The worker entry point: one [PainterRoom] per room name *)

(** [interface Env]: the namespace maps a room name to its object (created
    on first use), [ASSETS] serves everything else. *)
Record Env := mkEnv {
  PAINTER_ROOM : gmap string PainterRoom.t;
  ASSETS : Request -> Response
}.

(** [url.searchParams.get('room') || 'global'] *)
Definition room_of (req : Request) : string :=
  let p := searchParams_get "room" (searchParams req) in
  if truthy p then default "global"%string p else "global"%string.

Definition worker_fetch (req : Request) (now : Z) (env : Env) : Response * Env :=
  if String.prefix "/api/canvas" (pathname req) then
    let room := room_of req in
    let stub := default PainterRoom.fresh (PAINTER_ROOM env !! room) in
    let '(res, stub') := PainterRoom.fetch req now stub in
    (res, mkEnv (<[room := stub']> (PAINTER_ROOM env)) (ASSETS env))
  else (ASSETS env req, env).

#[global] Instance Eye_eq_dec : EqDecision Eye.
Proof. solve_decision. Defined.

(** ** The browser around the client *)

(** What the canvas holds and how the platform turns it into bytes and back:
    [toBlob] is [canvas.toBlob(_, 'image/png')], [createImageBitmap] decodes a
    blob (and rejects what is no image), [blank] is the canvas after
    [clearRect] over its whole area. *)
Class Browser := {
  picture : Type;
  blank : picture;
  toBlob : picture -> list byte;
  createImageBitmap : list byte -> option picture
}.

(** [window.setTimeout] and [window.clearTimeout]: single-shot timers, each
    remembering the eye its callback closed over. *)
Module Window.

Record Timer := mkTimer { handle : Z; due : Z; target : Eye }.

Record t := mk { clock : Z; nextHandle : Z; pending : list Timer }.

Definition initial : t := mk 0 1 [].

Definition setTimeout (eye : Eye) (delay : Z) (w : t) : Z * t :=
  (nextHandle w,
   mk (clock w) (nextHandle w + 1)
      (pending w ++ [mkTimer (nextHandle w) (clock w + delay) eye])).

Definition clearTimeout (h : Z) (w : t) : t :=
  mk (clock w) (nextHandle w)
     (filter (fun tm => handle tm <> h) (pending w)).

(** Time passes: the clock reaches [now]. *)
Definition advance (now : Z) (w : t) : t :=
  mk (Z.max (clock w) now) (nextHandle w) (pending w).

(** The timers whose delay has elapsed, oldest first. *)
Definition elapsed (w : t) : list Timer :=
  filter (fun tm => due tm <= clock w) (pending w).

(** The event loop takes the first elapsed timer off the queue. *)
Definition take_elapsed (w : t) : option (Timer * t) :=
  match elapsed w with
  | [] => None
  | tm :: _ =>
      Some (tm, mk (clock w) (nextHandle w)
                   (filter (fun tm' => handle tm' <> handle tm) (pending w)))
  end.

(** The timers armed for [eye]. *)
Definition armed (eye : Eye) (w : t) : list Timer :=
  filter (fun tm => target tm = eye) (pending w).

End Window.


(** ** The part of [Painter] the sync client calls *)

Module Painter.
Section WithBrowser.
Context `{B : Browser}.

(** [dirty] and, for each eye's canvas, what it shows. *)
Record t := mk { dirty : PerEye bool; canvas : PerEye picture }.

(** The constructor clears both eyes with [markDirty = false]. *)
Definition initial : t := mk (mkPerEye false false) (mkPerEye blank blank).

Definition isDirty (eye : Eye) (p : t) : bool := get (dirty p) eye.

Definition markSaved (eye : Eye) (p : t) : t :=
  mk (set (dirty p) eye false) (canvas p).

Definition clearEye (eye : Eye) (markDirty : bool) (p : t) : t :=
  mk (if markDirty then set (dirty p) eye true else dirty p)
     (set (canvas p) eye blank).

Definition drawBitmapToEye (eye : Eye) (bmp : picture) (markDirty : bool) (p : t) : t :=
  mk (if markDirty then set (dirty p) eye true else set (dirty p) eye false)
     (set (canvas p) eye bmp).

Definition exportPNG (eye : Eye) (p : t) : list byte := toBlob (get (canvas p) eye).

(** [stamp]: [draw] is what the compositing calls do to the canvas (it
    may be nothing at all); the eye is marked dirty either way. *)
Definition stamp (eye : Eye) (draw : picture -> picture) (p : t) : t :=
  mk (set (dirty p) eye true) (set (canvas p) eye (draw (get (canvas p) eye))).

End WithBrowser.
End Painter.

(** ** Asynchronous code of the client: a task monad

    A task reads and writes the page's state, awaits [fetch] (which may
    reject) or a local promise, and may itself reject. Each [Fetch] and
    [Await] is a point where the event loop may run something else before
    the task resumes. *)

Inductive net_result :=
| Rejected
| Responded (r : Response).

Inductive task (S A : Type) : Type :=
| Ret (a : A)
| Throw
| Read (k : S -> task S A)
| Write (s : S) (k : task S A)
| Fetch (req : Request) (k : net_result -> task S A)
| Await (k : task S A).
Arguments Ret {S A} _.
Arguments Throw {S A}.
Arguments Read {S A} _.
Arguments Write {S A} _ _.
Arguments Fetch {S A} _ _.
Arguments Await {S A} _.

Fixpoint task_bind {S A B} (f : A -> task S B) (t : task S A) : task S B :=
  match t with
  | Ret a => f a
  | Throw => Throw
  | Read k => Read (fun s => task_bind f (k s))
  | Write s k => Write s (task_bind f k)
  | Fetch req k => Fetch req (fun r => task_bind f (k r))
  | Await k => Await (task_bind f k)
  end.

#[global] Instance task_ret {S} : MRet (task S) := fun A a => Ret a.
#[global] Instance task_mbind {S} : MBind (task S) := fun A B f t => task_bind f t.

Definition modify {S} (f : S -> S) : task S unit :=
  Read (fun s => Write (f s) (Ret tt)).

(** [await fetch(...)]: a rejected promise propagates. *)
Definition await_fetch {S} (req : Request) : task S Response :=
  Fetch req (fun r => match r with Rejected => Throw | Responded res => Ret res end).

(** [await p] for a local promise [p]. *)
Definition await {S A} (o : option A) : task S A :=
  Await (match o with Some a => Ret a | None => Throw end).

(** How a task ended, what it left behind, and the requests it sent. *)
Record outcome (S N A : Type) := mkOutcome {
  result : option A;
  final : S;
  network : N;
  calls : list Request
}.
Arguments mkOutcome {S N A} _ _ _ _.
Arguments result {S N A} _.
Arguments final {S N A} _.
Arguments network {S N A} _.
Arguments calls {S N A} _.

(** Runs a task to its end with nothing else scheduled in between; [net]
    answers each request and moves the network's own state. *)
Fixpoint run {S N A} (net : Request -> N -> net_result * N)
         (t : task S A) (s : S) (n : N) : outcome S N A :=
  match t with
  | Ret a => mkOutcome (Some a) s n []
  | Throw => mkOutcome None s n []
  | Read k => run net (k s) s n
  | Write s' k => run net k s' n
  | Fetch req k =>
      let '(r, n') := net req n in
      let o := run net (k r) s n' in
      mkOutcome (result o) (final o) (network o) (req :: calls o)
  | Await k => run net k s n
  end.

(** A task stopped at its first [fetch]: the request and what resumes on
    the answer. *)
Inductive suspended (S A : Type) :=
| Finished (r : option A) (s : S)
| InFlight (req : Request) (s : S) (k : net_result -> task S A).
Arguments Finished {S A} _ _.
Arguments InFlight {S A} _ _ _.

(** Runs a task up to its first [fetch]. *)
Fixpoint start_task {S A} (t : task S A) (s : S) : suspended S A :=
  match t with
  | Ret a => Finished (Some a) s
  | Throw => Finished None s
  | Read k => start_task (k s) s
  | Write s' k => start_task k s'
  | Fetch req k => InFlight req s k
  | Await k => start_task k s
  end.

(** The task a suspended one continues with when its answer arrives. *)
Definition resume {S A} (sp : suspended S A) (r : net_result) : task S A :=
  match sp with
  | InFlight _ _ k => k r
  | Finished (Some a) _ => Ret a
  | Finished None _ => Throw
  end.

Definition read {S} : task S S := Read (fun s => Ret s).

(** ** The sync client: [SnapshotSync] *)

Module SnapshotSync.
Section WithBrowser.
Context `{B : Browser}.

Record t := mk {
  baseUrl : string;
  etag : PerEye (option string);
  timers : PerEye (option Z);
  painter : Painter.t
}.

(** What the client's code runs on: the object and the page's timers. *)
Record Page := mkPage { this : t; window : Window.t }.

Definition new (baseUrl : string) (painter : Painter.t) : t :=
  mk baseUrl (mkPerEye None None) (mkPerEye None None) painter.

Definition set_etag (eye : Eye) (v : option string) (pg : Page) : Page :=
  mkPage (mk (baseUrl (this pg)) (set (etag (this pg)) eye v)
             (timers (this pg)) (painter (this pg)))
         (window pg).

Definition on_painter (f : Painter.t -> Painter.t) (pg : Page) : Page :=
  mkPage (mk (baseUrl (this pg)) (etag (this pg)) (timers (this pg))
             (f (painter (this pg))))
         (window pg).

(** [fetch(this.url(eye), { method, body })]: the URL
    [${baseUrl}/api/canvas?eye=${eye}] carries no room and no conditional
    header. [baseUrl] is taken as a path prefix; it is '' in the entry
    script, the case every statement about client and worker together
    assumes. *)
Definition request (m : string) (eye : Eye) (data : list byte) (s : t) : Request :=
  mkRequest m (baseUrl s +:+ "/api/canvas") [("eye"%string, eye_name eye)] None data.

Definition hashBlob (blob : list byte) : string := hex (SHA256.digest blob).

(** The function [scheduleSave] hands to [setTimeout]. *)
Definition scheduleSave_callback (eye : Eye) : task Page unit :=
  pg ← read;
  if negb (Painter.isDirty eye (painter (this pg))) then mret tt else
  blob ← await (Some (Painter.exportPNG eye (painter (this pg))));
  tag ← await (Some (hashBlob blob));
  pg ← read;
  if bool_decide (Some tag = get (etag (this pg)) eye)
  then modify (on_painter (Painter.markSaved eye))
  else
    res ← await_fetch (request "PUT" eye blob (this pg));
    if ok res then
      let newTag := ETag (headers res) in
      modify (set_etag eye (Some (default tag newTag)));;
      modify (on_painter (Painter.markSaved eye))
    else mret tt.

Definition scheduleSave (eye : Eye) (pg : Page) : Page :=
  let w := match get (timers (this pg)) eye with
           | Some h => Window.clearTimeout h (window pg)
           | None => window pg
           end in
  let '(h, w) := Window.setTimeout eye 900 w in
  mkPage (mk (baseUrl (this pg)) (etag (this pg))
             (set (timers (this pg)) eye (Some h)) (painter (this pg)))
         w.

Definition clearRemote (eye : Eye) : task Page unit :=
  pg ← read;
  _ ← await_fetch (request "DELETE" eye [] (this pg));
  modify (set_etag eye None).

(** [pull] from the answer of its GET on. *)
Definition pull_response (eye : Eye) (res : Response) : task Page unit :=
  if status res =? 200 then
    blob ← await (Some (default [] (payload res)));
    bmp ← await (createImageBitmap blob);
    modify (on_painter (Painter.drawBitmapToEye eye bmp false));;
    modify (set_etag eye (ETag (headers res)))
  else if status res =? 204 then
    modify (on_painter (Painter.clearEye eye false));;
    modify (set_etag eye None)
  else mret tt.

Definition pull (eye : Eye) : task Page unit :=
  pg ← read;
  res ← await_fetch (request "GET" eye [] (this pg));
  pull_response eye res.

(** One tick of the poll loop [start] sets up for each eye. *)
Definition check (eye : Eye) : task Page unit :=
  pg ← read;
  res ← await_fetch (request "HEAD" eye [] (this pg));
  if negb (ok res) then mret tt else
  let remote := ETag (headers res) in
  pg ← read;
  if truthy remote && negb (bool_decide (remote = get (etag (this pg)) eye))
  then modify (set_etag eye remote);; pull eye
  else mret tt.

(** The event loop runs the callback of the first elapsed timer. *)
Definition fire_timer {N} (net : Request -> N -> net_result * N)
           (pg : Page) (n : N) : option (outcome Page N unit) :=
  match Window.take_elapsed (window pg) with
  | Some (tm, w) =>
      Some (run net (scheduleSave_callback (Window.target tm)) (mkPage (this pg) w) n)
  | None => None
  end.

(** The page's clock reaches [now]. *)
Definition at_time (now : Z) (pg : Page) : Page :=
  mkPage (this pg) (Window.advance now (window pg)).

End WithBrowser.
End SnapshotSync.

(** A push fails when its [fetch] rejects or is answered outside 200..299. *)
Definition failed (r : net_result) : Prop :=
  match r with
  | Rejected => True
  | Responded res => ok res = false
  end.

(** ** Networks a client can be run against *)

(** The worker itself, answering at server time [now]. *)
Definition serve (now : Z) (req : Request) (env : Env) : net_result * Env :=
  let '(res, env') := worker_fetch req now env in (Responded res, env').

(** A scripted network: the answers are handed out in order, and a request
    beyond the script is rejected. *)
Definition scripted (req : Request) (script : list net_result) : net_result * list net_result :=
  match script with
  | [] => (Rejected, [])
  | r :: script' => (r, script')
  end.

(** A browser to run examples in: a canvas shows the bytes last drawn on it
    and exports them unchanged; the blank canvas exports nothing. *)
Definition sample_browser : Browser :=
  {| picture := list byte;
     blank := [];
     toBlob := fun p => p;
     createImageBitmap := fun b => match b with [] => None | _ => Some b end |}.

(** ** Histories of a room *)

(** What can happen to a room: a request arrives at some instant, or the
    runtime drops the object and builds it again. *)
Inductive room_op :=
| Call (req : Request) (now : Z)
| Restart.

Definition apply_op (r : PainterRoom.t) (op : room_op) : PainterRoom.t :=
  match op with
  | Call req now => (PainterRoom.fetch req now r).2
  | Restart => PainterRoom.restart r
  end.

Definition exec (ops : list room_op) (r : PainterRoom.t) : PainterRoom.t :=
  fold_left apply_op ops r.

(** Every replica a room holds: the two in memory and the two persisted. *)
Definition replicas (r : PainterRoom.t) : list PainterRoom.EyeState :=
  [at_left (PainterRoom.eyes r); at_right (PainterRoom.eyes r)]
  ++ match PainterRoom.storage r with
     | Some saved => [at_left saved; at_right saved]
     | None => []
     end.

(** The tag of a replica is the hash of its content, and absent with it. *)
Definition coherent (s : PainterRoom.EyeState) : Prop :=
  PainterRoom.etag s = PainterRoom.hash <$> PainterRoom.bytes s.

(** A replica without its timestamp. *)
Definition content (s : PainterRoom.EyeState) : option (list byte) * option string :=
  (PainterRoom.bytes s, PainterRoom.etag s).

Definition contents (r : PainterRoom.t) : list (option (list byte) * option string) :=
  map content (replicas r).

(** The same request sent again at each of the instants [nows]. *)
Fixpoint fetch_times (req : Request) (nows : list Z) (r : PainterRoom.t)
  : list Response * PainterRoom.t :=
  match nows with
  | [] => ([], r)
  | now :: nows' =>
      let '(res, r') := PainterRoom.fetch req now r in
      let '(rs, r'') := fetch_times req nows' r' in
      (res :: rs, r'')
  end.

(** [req] with its query replaced by [?eye=left]. *)
Definition to_left (req : Request) : Request :=
  mkRequest (method req) (pathname req) [("eye", "left")]%string
            (if_none_match req) (body req).

(** ** Pages used in the examples *)

(** The page as the entry script builds it: [new SnapshotSync('', painter)]. *)
Definition sample_page : SnapshotSync.Page (B := sample_browser) :=
  SnapshotSync.mkPage (SnapshotSync.new "" Painter.initial) Window.initial.

(** A stroke ends on the left canvas at time 0, another one at time 500. *)
Definition first_notification : SnapshotSync.Page (B := sample_browser) :=
  SnapshotSync.scheduleSave left_eye (SnapshotSync.at_time 0 sample_page).

Definition second_notification : SnapshotSync.Page (B := sample_browser) :=
  SnapshotSync.scheduleSave left_eye (SnapshotSync.at_time 500 first_notification).

(** ** A room and two clients, for the examples *)

Definition no_assets (req : Request) : Response := mkResponse 404 no_headers None.

Definition empty_env : Env := mkEnv ∅ no_assets.

(** The request a client with [baseUrl = ''] sends. *)
Definition store_request (m : string) (eye : Eye) (data : list byte) : Request :=
  mkRequest m "/api/canvas" [("eye"%string, eye_name eye)] None data.

(** Somebody puts the bytes 1,2,3 on the left eye at time 1. *)
Definition env_painted : Env :=
  (worker_fetch (store_request "PUT" left_eye [x01; x02; x03]) 1 empty_env).2.

(** The room named 'global' after that. *)
Definition env_painted_room : PainterRoom.t :=
  default PainterRoom.fresh (PAINTER_ROOM env_painted !! "global"%string).

(** A client pulls them at time 2 and holds them from then on. *)
Definition holder : SnapshotSync.Page (B := sample_browser) :=
  final (run (serve 2) (SnapshotSync.pull left_eye) sample_page env_painted).

(** Somebody else clears the left eye at time 3. *)
Definition env_cleared : Env :=
  (worker_fetch (store_request "DELETE" left_eye []) 3 env_painted).2.

(** The holder's next poll tick, at time 4. *)
Definition poll_after_delete : outcome (SnapshotSync.Page (B := sample_browser)) Env unit :=
  run (serve 4) (SnapshotSync.check left_eye) holder env_cleared.

(** A second client starts its first pull while the room holds 1,2,3; the
    answer is produced at time 2 but is slow to arrive. *)
Definition pull_in_flight : suspended (SnapshotSync.Page (B := sample_browser)) unit :=
  start_task (SnapshotSync.pull left_eye) sample_page.

Definition old_answer : Response :=
  (worker_fetch (store_request "GET" left_eye []) 2 env_painted).1.

(** Meanwhile its user paints 9,9 on the left canvas at time 10, and the
    debounce timer fires at time 910: the push goes through. *)
Definition painted_over : SnapshotSync.Page (B := sample_browser) :=
  SnapshotSync.scheduleSave left_eye
    (SnapshotSync.on_painter (Painter.stamp (B := sample_browser) left_eye (fun _ => [x09; x09]))
       (SnapshotSync.at_time 10 sample_page)).

Definition pushed : outcome (SnapshotSync.Page (B := sample_browser)) Env unit :=
  default (mkOutcome None painted_over env_painted [])
          (SnapshotSync.fire_timer (serve 3) (SnapshotSync.at_time 910 painted_over)
                                   env_painted).

(** Only then does the answer to the pull arrive. *)
Definition late_delivery : outcome (SnapshotSync.Page (B := sample_browser)) Env unit :=
  run (serve 4) (resume pull_in_flight (Responded old_answer)) (final pushed)
      (network pushed).

(** The holder makes a stroke that changes nothing; its timer fires 900 later. *)
Definition idle_stroke : SnapshotSync.Page (B := sample_browser) :=
  SnapshotSync.at_time 900
    (SnapshotSync.scheduleSave left_eye
       (SnapshotSync.on_painter (Painter.stamp (B := sample_browser) left_eye (fun p => p)) holder)).

(** The holder paints 7 over its canvas; the timer has been taken off the
    queue and its callback is about to run. *)
Definition about_to_push : SnapshotSync.Page (B := sample_browser) :=
  SnapshotSync.on_painter (Painter.stamp (B := sample_browser) left_eye (fun _ => [x07])) holder.

(** Every pending timer is below the next handle and is the one
    [this.timers] records for its eye. *)
Definition timers_ok `{B : Browser} (pg : SnapshotSync.Page) : Prop :=
  forall tm, tm ∈ Window.pending (SnapshotSync.window pg) ->
    Window.handle tm < Window.nextHandle (SnapshotSync.window pg)
    /\ get (SnapshotSync.timers (SnapshotSync.this pg)) (Window.target tm)
       = Some (Window.handle tm).

(** [writes_within R s t]: started in state [s] and run without
    interruption, [t] only ever writes states related by [R] to the one
    before. *)
Inductive writes_within {S A} (R : S -> S -> Prop) : S -> task S A -> Prop :=
| ww_ret s a : writes_within R s (Ret a)
| ww_throw s : writes_within R s Throw
| ww_read s k : writes_within R s (k s) -> writes_within R s (Read k)
| ww_write s s' k : R s s' -> writes_within R s' k -> writes_within R s (Write s' k)
| ww_fetch s req k : (forall r, writes_within R s (k r)) -> writes_within R s (Fetch req k)
| ww_await s k : writes_within R s k -> writes_within R s (Await k).

(** Two pages with the same timers, queued and recorded. *)
Definition same_timers `{B : Browser} (pg pg' : SnapshotSync.Page) : Prop :=
  SnapshotSync.window pg' = SnapshotSync.window pg
  /\ SnapshotSync.timers (SnapshotSync.this pg') = SnapshotSync.timers (SnapshotSync.this pg).

(** What happens on a page: a stroke ends, time passes, a timer fires, a
    poll tick or a pull or a remote clear runs, the painter draws. *)
Inductive page_step `{B : Browser} : SnapshotSync.Page -> SnapshotSync.Page -> Prop :=
| step_notify eye pg : page_step pg (SnapshotSync.scheduleSave eye pg)
| step_time now pg : page_step pg (SnapshotSync.at_time now pg)
| step_fire {N} (net : Request -> N -> net_result * N) n pg o :
    SnapshotSync.fire_timer net pg n = Some o -> page_step pg (final o)
| step_check {N} (net : Request -> N -> net_result * N) n eye pg :
    page_step pg (final (run net (SnapshotSync.check eye) pg n))
| step_pull {N} (net : Request -> N -> net_result * N) n eye pg :
    page_step pg (final (run net (SnapshotSync.pull eye) pg n))
| step_clearRemote {N} (net : Request -> N -> net_result * N) n eye pg :
    page_step pg (final (run net (SnapshotSync.clearRemote eye) pg n))
| step_paint f pg : page_step pg (SnapshotSync.on_painter f pg).

(** ** The store, seen request by request *)

(** The room as [fetch] works on it after its first statement: reloaded when
    no eye holds bytes. *)
Definition loaded (r : PainterRoom.t) : PainterRoom.t :=
  if PainterRoom.absent (PainterRoom.bytes (at_left (PainterRoom.eyes r)))
     && PainterRoom.absent (PainterRoom.bytes (at_right (PainterRoom.eyes r)))
  then PainterRoom.load r else r.

(** Memory and storage agree, or memory is still as constructed. *)
Definition backed (r : PainterRoom.t) : Prop :=
  match PainterRoom.storage r with
  | Some saved => PainterRoom.eyes r = saved \/ PainterRoom.eyes r = PainterRoom.initial_eyes
  | None => PainterRoom.eyes r = PainterRoom.initial_eyes
  end.

(** Reading a tag back: two lowercase hex digits per byte. *)
Definition hexValue (c : ascii) : option N :=
  let n := N_of_ascii c in
  if ((48 <=? n) && (n <=? 57))%N then Some (n - 48)%N
  else if ((97 <=? n) && (n <=? 102))%N then Some (n - 87)%N
  else None.

Fixpoint unhex (s : string) : option (list byte) :=
  match s with
  | EmptyString => Some []
  | String c1 (String c2 s') =>
      match hexValue c1, hexValue c2, unhex s' with
      | Some h, Some l, Some bs =>
          match Byte.of_N (16 * h + l) with
          | Some b => Some (b :: bs)
          | None => None
          end
      | _, _, _ => None
      end
  | String _ EmptyString => None
  end.

(** ** More of the page *)

(** Notifications for [eye] arriving at the instants [ts], one after the
    other, with nothing else happening in between. *)
Fixpoint notify_all `{B : Browser} (eye : Eye) (ts : list Z) (pg : SnapshotSync.Page)
  : SnapshotSync.Page :=
  match ts with
  | [] => pg
  | t :: ts' => notify_all eye ts' (SnapshotSync.scheduleSave eye (SnapshotSync.at_time t pg))
  end.

(** The handles [this.timers] records are below the next handle and differ
    between the eyes. *)
Definition recorded_ok `{B : Browser} (pg : SnapshotSync.Page) : Prop :=
  (forall e h, get (SnapshotSync.timers (SnapshotSync.this pg)) e = Some h ->
               h < Window.nextHandle (SnapshotSync.window pg))
  /\ (forall h, at_left (SnapshotSync.timers (SnapshotSync.this pg)) = Some h ->
                at_right (SnapshotSync.timers (SnapshotSync.this pg)) = Some h -> False).

(** The click handler of the two clear buttons:
    [painter.clearEye(eye); await snapshot.clearRemote(eye)]. *)
Definition clear_click `{B : Browser} (eye : Eye) : task SnapshotSync.Page unit :=
  modify (SnapshotSync.on_painter (Painter.clearEye eye true));;
  SnapshotSync.clearRemote eye.

(** An answer to a pull's GET that [pull] cannot apply: the request was
    rejected, the status is neither 200 nor 204, or the body is no image. *)
Definition unusable `{B : Browser} (g : net_result) : Prop :=
  match g with
  | Rejected => True
  | Responded res =>
      (status res = 200 /\ createImageBitmap (default [] (payload res)) = None)
      \/ (status res <> 200 /\ status res <> 204)
  end.

(** ** Properties of the tag *)

Definition is_lower_hex (c : ascii) : bool :=
  let n := N_of_ascii c in
  ((48 <=? n) && (n <=? 57) || (97 <=? n) && (n <=? 102))%N.

#[global] Arguments SHA256.digest : simpl never.
#[global] Arguments hex : simpl never.
#[global] Arguments PainterRoom.hash : simpl never.
#[global] Arguments SnapshotSync.hashBlob : simpl never.

(** * Theorems *)

(** Test vectors of FIPS 180-4 and of the NIST examples. *)
Example sha256_abc :
  hex (SHA256.digest (bytes_of_string "abc")) =
  "ba7816bf8f01cfea414140de5dae2223b00361a396177a9cb410ff61f20015ad"%string.
Proof. vm_compute. reflexivity. Qed.

Example sha256_empty :
  hex (SHA256.digest []) =
  "e3b0c44298fc1c149afbf4c8996fb92427ae41e4649b934ca495991b7852b855"%string.
Proof. vm_compute. reflexivity. Qed.

Example sha256_two_blocks :
  hex (SHA256.digest
         (bytes_of_string "abcdbcdecdefdefgefghfghighijhijkijkljklmklmnlmnomnopnopq")) =
  "248d6a61d20638b8e5c026930c3e6039a33ce45964ff2167f6ecedd419db06c1"%string.
Proof. vm_compute. reflexivity. Qed.

Lemma digest_length (data : list byte) : length (SHA256.digest data) = 32%nat.
Proof.
  unfold SHA256.digest. generalize (fold_left SHA256.compress) as f.
  intros f. unfold SHA256.out. rewrite length_map. reflexivity.
Qed.

Lemma hex_pair_length (b : byte) : String.length (padStart 2 (toString16 b)) = 2%nat.
Proof. destruct b; reflexivity. Qed.

Lemma hex_pair_lower (b : byte) :
  forallb is_lower_hex (list_ascii_of_string (padStart 2 (toString16 b))) = true.
Proof. destruct b; reflexivity. Qed.

Lemma append_cons (c : ascii) (s1 s2 : string) :
  (String c s1 +:+ s2 = String c (s1 +:+ s2))%string.
Proof. reflexivity. Qed.

Lemma append_empty_r (s : string) : (s +:+ "" = s)%string.
Proof. induction s as [|c s IH]; [reflexivity | now rewrite append_cons, IH]. Qed.

Lemma string_length_app (s1 s2 : string) :
  String.length (s1 +:+ s2) = (String.length s1 + String.length s2)%nat.
Proof.
  induction s1 as [|c s1 IH]; [reflexivity |].
  rewrite append_cons. simpl. now rewrite IH.
Qed.

Lemma list_ascii_app (s1 s2 : string) :
  list_ascii_of_string (s1 +:+ s2) = list_ascii_of_string s1 ++ list_ascii_of_string s2.
Proof.
  induction s1 as [|c s1 IH]; [reflexivity |].
  rewrite append_cons. simpl. now rewrite IH.
Qed.

(** [join('')] glues the pieces with nothing in between. *)
Lemma join_empty_cons (s : string) (l : list string) :
  String.concat "" (s :: l) = (s +:+ String.concat "" l)%string.
Proof.
  destruct l as [|s' l].
  - simpl. now rewrite append_empty_r.
  - reflexivity.
Qed.

Lemma hex_length (bs : list byte) : String.length (hex bs) = (2 * length bs)%nat.
Proof.
  unfold hex. induction bs as [|b bs IH].
  - reflexivity.
  - rewrite map_cons, join_empty_cons, string_length_app, hex_pair_length, IH.
    simpl. lia.
Qed.

Lemma hex_lower (bs : list byte) :
  forallb is_lower_hex (list_ascii_of_string (hex bs)) = true.
Proof.
  unfold hex. induction bs as [|b bs IH].
  - reflexivity.
  - rewrite map_cons, join_empty_cons, list_ascii_app, forallb_app, hex_pair_lower, IH.
    reflexivity.
Qed.

Lemma hash_length (data : list byte) : String.length (PainterRoom.hash data) = 64%nat.
Proof. unfold PainterRoom.hash. now rewrite hex_length, digest_length. Qed.

Lemma hash_truthy (data : list byte) : truthy (Some (PainterRoom.hash data)) = true.
Proof.
  pose proof (hash_length data) as H.
  generalize dependent (PainterRoom.hash data).
  intros [|c s] H; [discriminate H | reflexivity].
Qed.

(** C9. The client's [hashBlob] and the store's [hash] give the same tag for
    every byte sequence: each is the SHA-256 digest written as 64 lowercase
    hexadecimal digits. *)
Theorem hashBlob_agrees_with_hash (b : list byte) :
  SnapshotSync.hashBlob b = PainterRoom.hash b
  /\ PainterRoom.hash b = hex (SHA256.digest b)
  /\ String.length (PainterRoom.hash b) = 64%nat
  /\ forallb is_lower_hex (list_ascii_of_string (PainterRoom.hash b)) = true.
Proof.
  repeat split.
  - apply hash_length.
  - apply hex_lower.
Qed.

(** ** The store *)

Lemma get_set_same {A} (r : PerEye A) (e : Eye) (v : A) : get (set r e v) e = v.
Proof. destruct e; reflexivity. Qed.

Lemma get_set_other {A} (r : PerEye A) (e e' : Eye) (v : A) :
  e <> e' -> get (set r e v) e' = get r e'.
Proof. destruct e, e'; intros H; try reflexivity; contradiction H; reflexivity. Qed.

Lemma set_set {A} (r : PerEye A) (e : Eye) (v w : A) : set (set r e v) e w = set r e w.
Proof. destruct e; reflexivity. Qed.

(** Once an eye holds bytes, [fetch] does not reload from storage. *)
Lemma no_reload_after_set (es : PerEye PainterRoom.EyeState) (e : Eye)
      (b : list byte) (tag : option string) (t : Z) :
  let es' := set es e (PainterRoom.mkEyeState (Some b) tag t) in
  PainterRoom.absent (PainterRoom.bytes (at_left es'))
  && PainterRoom.absent (PainterRoom.bytes (at_right es')) = false.
Proof. destruct e; simpl; [reflexivity | apply andb_false_r]. Qed.

(** What a PUT of [b] to eye [k] answers and leaves behind. *)
Lemma fetch_put (req : Request) (now : Z) (room : PainterRoom.t) :
  method req = "PUT"%string ->
  exists base,
    PainterRoom.fetch req now room =
    let k := PainterRoom.parse_eye (searchParams_get "eye" (searchParams req)) in
    let tag := PainterRoom.hash (body req) in
    let es := set base k (PainterRoom.mkEyeState (Some (body req)) (Some tag) now) in
    (mkResponse 204 (mkHeaders None (Some tag) None None) None,
     PainterRoom.mk es (Some es)).
Proof.
  intros Hm. unfold PainterRoom.fetch. rewrite Hm. simpl.
  eexists. reflexivity.
Qed.

(** C1. Round trip at the store: a GET for eye [k] right after a PUT of [b]
    to [k] answers 200 with body [b] and the ETag the PUT returned, the
    SHA-256 hex digest of [b]. The GET is the plain one: a conditional GET
    that already carries this tag is answered 304 instead. *)
Theorem put_then_get (b : list byte) (k : Eye) (put get_ : Request)
        (t1 t2 : Z) (room : PainterRoom.t) :
  method put = "PUT"%string -> body put = b ->
  PainterRoom.parse_eye (searchParams_get "eye" (searchParams put)) = k ->
  method get_ = "GET"%string ->
  PainterRoom.parse_eye (searchParams_get "eye" (searchParams get_)) = k ->
  if_none_match get_ <> Some (PainterRoom.hash b) ->
  ETag (headers (PainterRoom.fetch put t1 room).1) = Some (hex (SHA256.digest b))
  /\ status (PainterRoom.fetch get_ t2 (PainterRoom.fetch put t1 room).2).1 = 200
  /\ payload (PainterRoom.fetch get_ t2 (PainterRoom.fetch put t1 room).2).1 = Some b
  /\ ETag (headers (PainterRoom.fetch get_ t2 (PainterRoom.fetch put t1 room).2).1)
     = ETag (headers (PainterRoom.fetch put t1 room).1).
Proof.
  intros Hput Hb Hk Hget Hk' Hinm.
  destruct (fetch_put put t1 room Hput) as [base ->].
  rewrite Hb, Hk. cbv zeta. simpl fst. simpl snd.
  split; [reflexivity |].
  unfold PainterRoom.fetch. rewrite Hget, Hk'.
  cbn [PainterRoom.eyes]. rewrite no_reload_after_set.
  cbn [PainterRoom.eyes]. rewrite get_set_same.
  cbn [PainterRoom.etag PainterRoom.bytes PainterRoom.updatedAt].
  rewrite hash_truthy.
  assert (truthy (if_none_match get_) && true
          && bool_decide (if_none_match get_ = Some (PainterRoom.hash b)) = false) as ->.
  { rewrite bool_decide_eq_false_2 by exact Hinm. apply andb_false_r. }
  simpl. destruct (t1 =? 0); simpl; auto.
Qed.

Lemma replicas_coherent_intro (r : PainterRoom.t) :
  (forall e, coherent (get (PainterRoom.eyes r) e)) ->
  (forall saved e, PainterRoom.storage r = Some saved -> coherent (get saved e)) ->
  Forall coherent (replicas r).
Proof.
  intros Hm Hs. unfold replicas. apply Forall_app. split.
  - repeat constructor; [apply (Hm left_eye) | apply (Hm right_eye)].
  - destruct (PainterRoom.storage r) as [saved|]; [|constructor].
    repeat constructor;
      [apply (Hs saved left_eye) | apply (Hs saved right_eye)]; reflexivity.
Qed.

Lemma replicas_coherent_elim (r : PainterRoom.t) :
  Forall coherent (replicas r) ->
  (forall e, coherent (get (PainterRoom.eyes r) e))
  /\ (forall saved e, PainterRoom.storage r = Some saved -> coherent (get saved e)).
Proof.
  unfold replicas. intros H. apply Forall_app in H as [Hm Hs]. split.
  - intros e. inversion Hm as [|? ? Hl Hm']; subst.
    inversion Hm' as [|? ? Hr _]; subst. destruct e; assumption.
  - intros saved e Heq. rewrite Heq in Hs.
    inversion Hs as [|? ? Hl Hs']; subst.
    inversion Hs' as [|? ? Hr _]; subst. destruct e; assumption.
Qed.

Lemma coherent_set (es : PerEye PainterRoom.EyeState) (k : Eye) (s : PainterRoom.EyeState) :
  coherent s -> (forall e, coherent (get es e)) -> forall e, coherent (get (set es k s) e).
Proof.
  intros Hs Hes e. destruct k, e; simpl; try assumption;
    [apply (Hes right_eye) | apply (Hes left_eye)].
Qed.

Lemma load_coherent (r : PainterRoom.t) :
  Forall coherent (replicas r) -> Forall coherent (replicas (PainterRoom.load r)).
Proof.
  intros H. destruct (replicas_coherent_elim r H) as [Hm Hs].
  unfold PainterRoom.load. destruct (PainterRoom.storage r) as [saved|] eqn:E; [|exact H].
  apply replicas_coherent_intro; simpl.
  - intros e. now apply Hs.
  - intros saved' e [= <-]. now apply Hs.
Qed.

Lemma persist_set_coherent (r : PainterRoom.t) (k : Eye) (s : PainterRoom.EyeState) :
  coherent s -> Forall coherent (replicas r) ->
  Forall coherent
    (replicas (PainterRoom.persist
                 (PainterRoom.mk (set (PainterRoom.eyes r) k s) (PainterRoom.storage r)))).
Proof.
  intros Hs H. destruct (replicas_coherent_elim r H) as [Hm _].
  apply replicas_coherent_intro; simpl.
  - now apply coherent_set.
  - intros saved e [= <-]. now apply coherent_set.
Qed.

Lemma fetch_coherent (req : Request) (now : Z) (r : PainterRoom.t) :
  Forall coherent (replicas r) ->
  Forall coherent (replicas (PainterRoom.fetch req now r).2).
Proof.
  intros H. unfold PainterRoom.fetch.
  set (r0 := if _ && _ then PainterRoom.load r else r).
  assert (Forall coherent (replicas r0)) as H0.
  { subst r0. destruct (_ && _); [now apply load_coherent | exact H]. }
  clearbody r0.
  destruct (_ || _).
  { repeat match goal with |- context [if ?c then _ else _] => destruct c end;
      exact H0. }
  destruct (method req =? "PUT")%string.
  { simpl. apply persist_set_coherent; [reflexivity | exact H0]. }
  destruct (method req =? "DELETE")%string.
  { simpl. apply persist_set_coherent; [reflexivity | exact H0]. }
  exact H0.
Qed.

Lemma restart_coherent (r : PainterRoom.t) :
  Forall coherent (replicas r) -> Forall coherent (replicas (PainterRoom.restart r)).
Proof.
  intros H. destruct (replicas_coherent_elim r H) as [_ Hs].
  apply replicas_coherent_intro; simpl.
  - intros []; reflexivity.
  - exact Hs.
Qed.

Lemma exec_coherent (ops : list room_op) (r : PainterRoom.t) :
  Forall coherent (replicas r) -> Forall coherent (replicas (exec ops r)).
Proof.
  revert r. induction ops as [|op ops IH]; intros r H; [exact H |].
  apply IH. destruct op; [apply fetch_coherent | apply restart_coherent]; exact H.
Qed.

(** C2. In every state a room reaches from the fresh one through requests
    and restarts (which reload what was persisted), each replica, in memory
    or persisted, has a null tag exactly when its content is null, and two
    replicas with equal content have equal tags. *)
Theorem store_invariant (ops ops' : list room_op) (s s' : PainterRoom.EyeState) :
  s ∈ replicas (exec ops PainterRoom.fresh) ->
  s' ∈ replicas (exec ops' PainterRoom.fresh) ->
  (PainterRoom.etag s = None <-> PainterRoom.bytes s = None)
  /\ (PainterRoom.bytes s = PainterRoom.bytes s' -> PainterRoom.etag s = PainterRoom.etag s').
Proof.
  assert (Forall coherent (replicas PainterRoom.fresh)) as Hfresh
      by (repeat constructor).
  intros Hs Hs'.
  pose proof (exec_coherent ops _ Hfresh) as H.
  pose proof (exec_coherent ops' _ Hfresh) as H'.
  rewrite Forall_forall in H, H'.
  specialize (H s Hs). specialize (H' s' Hs'). unfold coherent in H, H'.
  split.
  - rewrite H. destruct (PainterRoom.bytes s); simpl; split; congruence.
  - intros Heq. rewrite H, H', Heq. reflexivity.
Qed.

(** A PUT repeated on the room it has just written changes timestamps only. *)
Lemma fetch_put_again (req : Request) (now : Z) (base : PerEye PainterRoom.EyeState) (t : Z) :
  method req = "PUT"%string ->
  let k := PainterRoom.parse_eye (searchParams_get "eye" (searchParams req)) in
  let tag := PainterRoom.hash (body req) in
  let written t := set base k (PainterRoom.mkEyeState (Some (body req)) (Some tag) t) in
  PainterRoom.fetch req now (PainterRoom.mk (written t) (Some (written t))) =
  (mkResponse 204 (mkHeaders None (Some tag) None None) None,
   PainterRoom.mk (written now) (Some (written now))).
Proof.
  intros Hm k tag written. unfold PainterRoom.fetch. rewrite Hm.
  cbn [PainterRoom.eyes]. subst written. cbv beta.
  rewrite no_reload_after_set. simpl. rewrite set_set. reflexivity.
Qed.

Lemma contents_written (base : PerEye PainterRoom.EyeState) (k : Eye)
      (b : option (list byte)) (tag : option string) (t t' : Z) :
  contents (PainterRoom.mk (set base k (PainterRoom.mkEyeState b tag t))
                           (Some (set base k (PainterRoom.mkEyeState b tag t)))) =
  contents (PainterRoom.mk (set base k (PainterRoom.mkEyeState b tag t'))
                           (Some (set base k (PainterRoom.mkEyeState b tag t')))).
Proof. destruct k; reflexivity. Qed.

(** C3. Idempotent put: the same PUT sent again, any number of times, is
    answered with the same tag each time and leaves every replica of the
    room, in memory and persisted, with the same content and tag as after
    the first; only [updatedAt] moves. *)
Theorem put_idempotent (req : Request) (now : Z) (nows : list Z) (room : PainterRoom.t) :
  method req = "PUT"%string ->
  ETag (headers (PainterRoom.fetch req now room).1) = Some (PainterRoom.hash (body req))
  /\ Forall (fun res => status res = 204
                        /\ ETag (headers res)
                           = ETag (headers (PainterRoom.fetch req now room).1))
            (fetch_times req nows (PainterRoom.fetch req now room).2).1
  /\ contents (fetch_times req nows (PainterRoom.fetch req now room).2).2
     = contents (PainterRoom.fetch req now room).2.
Proof.
  intros Hm. destruct (fetch_put req now room Hm) as [base ->].
  cbv zeta. simpl fst. simpl snd. split; [reflexivity |].
  revert now. induction nows as [|t nows IH]; intros now.
  - split; [constructor | reflexivity].
  - cbn [fetch_times].
    pose proof (fetch_put_again req t base now Hm) as E. cbv zeta in E. rewrite E.
    destruct (IH t) as [IH1 IH2].
    destruct (fetch_times req nows _) as [rs r''] eqn:Ers.
    simpl fst in *. simpl snd in *. split.
    + constructor; [split; reflexivity | exact IH1].
    + rewrite IH2. apply contents_written.
Qed.

(** The scenario of the design notes: PUT 1,2,3, conditional HEAD, the same
    PUT again, DELETE, GET, PUT 9,9. *)
Example store_scenario :
  let put123 := store_request "PUT" left_eye [x01; x02; x03] in
  let t1 := PainterRoom.hash [x01; x02; x03] in
  let head_t1 := mkRequest "HEAD" "/api/canvas" [("eye", "left")]%string (Some t1) [] in
  let s1 := PainterRoom.fetch put123 1 PainterRoom.fresh in
  let s2 := PainterRoom.fetch head_t1 2 s1.2 in
  let s3 := PainterRoom.fetch put123 3 s2.2 in
  let s4 := PainterRoom.fetch (store_request "DELETE" left_eye []) 4 s3.2 in
  let s5 := PainterRoom.fetch (store_request "GET" left_eye []) 5 s4.2 in
  let s6 := PainterRoom.fetch (store_request "PUT" left_eye [x09; x09]) 6 s5.2 in
  map status [s1.1; s2.1; s3.1; s4.1; s5.1; s6.1] = [204; 304; 204; 204; 204; 204]
  /\ ETag (headers s1.1) = Some t1
  /\ ETag (headers s3.1) = Some t1
  /\ ETag (headers s5.1) = None
  /\ ETag (headers s6.1)
     = Some "31609426297325bdb28c86ab3ceeed4a3c438966733fd61b8aea00ee8b23b7bc"%string
  /\ ETag (headers s6.1) <> Some t1.
Proof. vm_compute. repeat split. discriminate. Qed.

(** ** Defaults of the interface *)

Lemma room_of_absent (req : Request) :
  searchParams_get "room" (searchParams req) = None -> room_of req = "global"%string.
Proof. intros H. unfold room_of. rewrite H. reflexivity. Qed.

(** C10. A request whose [eye] parameter is absent, or is any string other
    than 'left' and 'right', operates on the left replica, whatever its
    method: it is served exactly as the same request for the left eye; a PUT
    overwrites the left replica with the body, its hash and the instant, a
    DELETE clears it, both leaving the right replica as the (re)loaded room
    has it and persisting the result; a GET or HEAD answers from the left
    replica alone. And a request without [room] parameter is routed to the
    room named 'global'. *)
Theorem interface_defaults (req : Request) (now : Z) (room : PainterRoom.t) (env : Env) :
  (searchParams_get "eye" (searchParams req) <> Some "left"%string ->
   searchParams_get "eye" (searchParams req) <> Some "right"%string ->
   PainterRoom.fetch req now room = PainterRoom.fetch (to_left req) now room
   /\ (method req = "PUT"%string ->
       PainterRoom.fetch req now room
       = (mkResponse 204 (mkHeaders None (Some (PainterRoom.hash (body req))) None None) None,
          PainterRoom.mk
            (mkPerEye (PainterRoom.mkEyeState (Some (body req))
                         (Some (PainterRoom.hash (body req))) now)
                      (at_right (PainterRoom.eyes (loaded room))))
            (Some (mkPerEye (PainterRoom.mkEyeState (Some (body req))
                               (Some (PainterRoom.hash (body req))) now)
                            (at_right (PainterRoom.eyes (loaded room)))))))
   /\ (method req = "DELETE"%string ->
       PainterRoom.fetch req now room
       = (mkResponse 204 no_headers None,
          PainterRoom.mk
            (mkPerEye (PainterRoom.mkEyeState None None now)
                      (at_right (PainterRoom.eyes (loaded room))))
            (Some (mkPerEye (PainterRoom.mkEyeState None None now)
                            (at_right (PainterRoom.eyes (loaded room)))))))
   /\ (method req = "GET"%string -> if_none_match req = None ->
       PainterRoom.fetch req now room
       = (mkResponse
            (if PainterRoom.absent (PainterRoom.bytes (at_left (PainterRoom.eyes (loaded room))))
             then 204 else 200)
            (mkHeaders (Some "no-store"%string)
               (if truthy (PainterRoom.etag (at_left (PainterRoom.eyes (loaded room))))
                then PainterRoom.etag (at_left (PainterRoom.eyes (loaded room))) else None)
               (if PainterRoom.updatedAt (at_left (PainterRoom.eyes (loaded room))) =? 0
                then None
                else Some (PainterRoom.updatedAt (at_left (PainterRoom.eyes (loaded room)))))
               (if PainterRoom.absent
                     (PainterRoom.bytes (at_left (PainterRoom.eyes (loaded room))))
                then None else Some "image/png"%string))
            (PainterRoom.bytes (at_left (PainterRoom.eyes (loaded room)))),
          loaded room))
   /\ (method req = "HEAD"%string -> if_none_match req = None ->
       PainterRoom.fetch req now room
       = (mkResponse 200
            (mkHeaders (Some "no-store"%string)
               (if truthy (PainterRoom.etag (at_left (PainterRoom.eyes (loaded room))))
                then PainterRoom.etag (at_left (PainterRoom.eyes (loaded room))) else None)
               (if PainterRoom.updatedAt (at_left (PainterRoom.eyes (loaded room))) =? 0
                then None
                else Some (PainterRoom.updatedAt (at_left (PainterRoom.eyes (loaded room)))))
               None)
            None,
          loaded room)))
  /\ (String.prefix "/api/canvas" (pathname req) = true ->
      searchParams_get "room" (searchParams req) = None ->
      worker_fetch req now env =
      let stub := default PainterRoom.fresh (PAINTER_ROOM env !! "global"%string) in
      ((PainterRoom.fetch req now stub).1,
       mkEnv (<["global"%string := (PainterRoom.fetch req now stub).2]> (PAINTER_ROOM env))
             (ASSETS env))).
Proof.
  split.
  - intros Hl Hr.
    assert (PainterRoom.parse_eye (searchParams_get "eye" (searchParams req)) = left_eye) as E.
    { unfold PainterRoom.parse_eye.
      destruct (searchParams_get "eye" (searchParams req)) as [p|]; [|reflexivity].
      destruct (String.eqb_spec p "left"); [reflexivity |].
      destruct (String.eqb_spec p "right"); [|reflexivity].
      subst p. contradiction Hr. reflexivity. }
    split; [unfold PainterRoom.fetch; rewrite E; reflexivity |].
    unfold PainterRoom.fetch. fold (loaded room). rewrite E.
    split; [intros Hm; rewrite Hm; reflexivity |].
    split; [intros Hm; rewrite Hm; reflexivity |].
    split; intros Hm Hinm; rewrite Hm, Hinm; cbn [get truthy andb];
      destruct (loaded room) as [[[bl el ul] sr] st];
      cbn [PainterRoom.eyes at_left PainterRoom.etag PainterRoom.bytes PainterRoom.updatedAt];
      destruct (truthy el), (ul =? 0), bl; reflexivity.
  - intros Hp Hroom. unfold worker_fetch. rewrite Hp, (room_of_absent req Hroom).
    cbv zeta. destruct (PainterRoom.fetch req now _) as [res stub']. reflexivity.
Qed.

(** ** The sync client *)

Section Client.
Context `{B : Browser}.
Import SnapshotSync.

Lemma isDirty_markSaved (eye : Eye) (p : Painter.t) :
  Painter.isDirty eye (Painter.markSaved eye p) = false.
Proof. unfold Painter.isDirty, Painter.markSaved. simpl. apply get_set_same. Qed.

(** C4. Push suppression: when the debounce timer of a dirty eye fires and
    the hash of the eye's current content equals the cached tag, the client
    sends nothing over the network and marks the eye clean. *)
Theorem push_suppressed {N} (net : Request -> N -> net_result * N)
        (pg : Page) (n : N) (tm : Window.Timer) (w : Window.t) :
  Window.take_elapsed (window pg) = Some (tm, w) ->
  Painter.isDirty (Window.target tm) (painter (this pg)) = true ->
  get (etag (this pg)) (Window.target tm)
  = Some (hashBlob (Painter.exportPNG (Window.target tm) (painter (this pg)))) ->
  exists o,
    fire_timer net pg n = Some o
    /\ calls o = []
    /\ network o = n
    /\ final o = on_painter (Painter.markSaved (Window.target tm)) (mkPage (this pg) w)
    /\ Painter.isDirty (Window.target tm) (painter (this (final o))) = false.
Proof.
  intros Htm Hdirty Htag. unfold fire_timer. rewrite Htm.
  eexists. split; [reflexivity |].
  unfold scheduleSave_callback. cbn. rewrite Hdirty. cbn.
  rewrite Htag. rewrite bool_decide_eq_true_2 by reflexivity. cbn.
  repeat split. apply isDirty_markSaved.
Qed.

(** What [scheduleSave] leaves of the old queue holds no timer of the eye. *)
Lemma scheduleSave_keeps (eye : Eye) (pg : Page) (tm : Window.Timer) :
  timers_ok pg ->
  tm ∈ match get (timers (this pg)) eye with
       | Some h => Window.pending (Window.clearTimeout h (window pg))
       | None => Window.pending (window pg)
       end ->
  tm ∈ Window.pending (window pg) /\ Window.target tm <> eye.
Proof.
  intros Hok. destruct (get (timers (this pg)) eye) as [h|] eqn:Eh; simpl; intros Hin.
  - apply list_elem_of_filter in Hin as [Hne Hin]. split; [exact Hin |].
    intros Ht. destruct (Hok tm Hin) as [_ Hrec]. rewrite Ht, Eh in Hrec.
    injection Hrec as ->. contradiction Hne. reflexivity.
  - split; [exact Hin |].
    intros Ht. destruct (Hok tm Hin) as [_ Hrec]. rewrite Ht, Eh in Hrec.
    discriminate Hrec.
Qed.

Lemma scheduleSave_pending (eye : Eye) (pg : Page) :
  Window.pending (window (scheduleSave eye pg))
  = match get (timers (this pg)) eye with
    | Some h => Window.pending (Window.clearTimeout h (window pg))
    | None => Window.pending (window pg)
    end
    ++ [Window.mkTimer (Window.nextHandle (window pg)) (Window.clock (window pg) + 900) eye].
Proof. unfold scheduleSave. destruct (get (timers (this pg)) eye); reflexivity. Qed.

Lemma scheduleSave_window (eye : Eye) (pg : Page) :
  Window.nextHandle (window (scheduleSave eye pg)) = Window.nextHandle (window pg) + 1
  /\ Window.clock (window (scheduleSave eye pg)) = Window.clock (window pg)
  /\ timers (this (scheduleSave eye pg))
     = set (timers (this pg)) eye (Some (Window.nextHandle (window pg))).
Proof.
  unfold scheduleSave.
  destruct (get (timers (this pg)) eye); simpl; repeat split; reflexivity.
Qed.

Lemma armed_after_scheduleSave (eye : Eye) (pg : Page) :
  timers_ok pg ->
  Window.armed eye (window (scheduleSave eye pg))
  = [Window.mkTimer (Window.nextHandle (window pg))
                    (Window.clock (window pg) + 900) eye].
Proof.
  intros Hok. unfold Window.armed. rewrite scheduleSave_pending, filter_app.
  replace (filter (fun tm => Window.target tm = eye) _) with (@nil Window.Timer).
  - simpl. rewrite filter_cons_True by reflexivity. reflexivity.
  - symmetry. apply elem_of_nil_inv. intros tm Htm.
    apply list_elem_of_filter in Htm as [Ht Hin].
    destruct (scheduleSave_keeps eye pg tm Hok Hin) as [_ Hne]. contradiction.
Qed.

Lemma scheduleSave_timers_ok (eye : Eye) (pg : Page) :
  timers_ok pg -> timers_ok (scheduleSave eye pg).
Proof.
  intros Hok tm. rewrite scheduleSave_pending.
  destruct (scheduleSave_window eye pg) as (Hn & _ & Ht).
  rewrite Hn, Ht. intros Hin. apply elem_of_app in Hin as [Hold | Hnew].
  - destruct (scheduleSave_keeps eye pg tm Hok Hold) as [Hin Hne].
    destruct (Hok tm Hin) as [Hlt Hrec]. split; [lia |].
    rewrite get_set_other by congruence. exact Hrec.
  - apply list_elem_of_singleton in Hnew as ->. simpl.
    split; [lia | apply get_set_same].
Qed.

Lemma at_time_timers_ok (now : Z) (pg : Page) : timers_ok pg -> timers_ok (at_time now pg).
Proof. intros Hok tm Hin. exact (Hok tm Hin). Qed.

Lemma initial_timers_ok (s : SnapshotSync.t) :
  timers_ok (mkPage s Window.initial).
Proof. intros tm Hin. simpl in Hin. now apply elem_of_nil in Hin. Qed.

(** *** The timers are an invariant of the page *)

Lemma run_writes_within {S N A} (R : S -> S -> Prop)
      (net : Request -> N -> net_result * N) (t : task S A) (s : S) (n : N) :
  (forall a, R a a) -> (forall a b c, R a b -> R b c -> R a c) ->
  writes_within R s t -> R s (final (run net t s n)).
Proof.
  intros Hrefl Htrans Hw. revert n. induction Hw as [s a | s | s k _ IH | s s' k Hr _ IH
                                        | s req k _ IH | s k _ IH]; intros n; cbn.
  - apply Hrefl.
  - apply Hrefl.
  - apply IH.
  - apply (Htrans _ s'); [exact Hr | apply IH].
  - destruct (net req n) as [r n']. cbn. apply IH.
  - apply IH.
Qed.

Lemma same_timers_refl (pg : Page) : same_timers pg pg.
Proof. split; reflexivity. Qed.

Lemma same_timers_trans (a b c : Page) : same_timers a b -> same_timers b c -> same_timers a c.
Proof. intros [H1 H2] [H3 H4]. split; congruence. Qed.

(** A task run alone leaves the timers as they were when all its writes do. *)
Lemma run_keeps_timers {N A} (net : Request -> N -> net_result * N)
      (t : task Page A) (pg : Page) (n : N) :
  writes_within same_timers pg t -> same_timers pg (final (run net t pg n)).
Proof.
  apply run_writes_within; [exact same_timers_refl | exact same_timers_trans].
Qed.

Ltac within_timers :=
  repeat (cbn;
          first [ apply ww_ret | apply ww_throw | apply ww_read | apply ww_await
                | apply ww_fetch; intros [|?]
                | apply ww_write; [split; reflexivity |]
                | match goal with
                  | |- context [if ?c then _ else _] => destruct c
                  | |- context [match ?c with Some _ => _ | None => _ end] => destruct c
                  end ]).

Lemma callback_keeps_timers (eye : Eye) (pg : Page) :
  writes_within same_timers pg (scheduleSave_callback eye).
Proof. unfold scheduleSave_callback. within_timers. Qed.

Lemma pull_keeps_timers (eye : Eye) (pg : Page) :
  writes_within same_timers pg (pull eye).
Proof. unfold pull, pull_response. within_timers. Qed.

Lemma check_keeps_timers (eye : Eye) (pg : Page) :
  writes_within same_timers pg (check eye).
Proof. unfold check, pull, pull_response. within_timers. Qed.

Lemma clearRemote_keeps_timers (eye : Eye) (pg : Page) :
  writes_within same_timers pg (clearRemote eye).
Proof. unfold clearRemote. within_timers. Qed.

Lemma same_timers_ok (pg pg' : Page) : same_timers pg pg' -> timers_ok pg -> timers_ok pg'.
Proof. intros [Hw Ht] Hok tm. rewrite Hw, Ht. apply Hok. Qed.

Lemma take_elapsed_timers_ok (pg : Page) (tm : Window.Timer) (w : Window.t) :
  Window.take_elapsed (window pg) = Some (tm, w) ->
  timers_ok pg -> timers_ok (mkPage (this pg) w).
Proof.
  unfold Window.take_elapsed. destruct (Window.elapsed (window pg)) as [|tm0 l]; [discriminate |].
  intros [= <- <-] Hok tm' Hin. cbn in Hin |- *.
  apply list_elem_of_filter in Hin as [_ Hin]. exact (Hok tm' Hin).
Qed.

Lemma page_step_timers_ok (pg pg' : Page) :
  page_step pg pg' -> timers_ok pg -> timers_ok pg'.
Proof.
  intros Hstep Hok. destruct Hstep as [eye pg | now pg | N net n pg o Hfire
                                     | N net n eye pg | N net n eye pg | N net n eye pg | f pg].
  - now apply scheduleSave_timers_ok.
  - now apply at_time_timers_ok.
  - unfold fire_timer in Hfire.
    destruct (Window.take_elapsed (window pg)) as [[tm w]|] eqn:E; [|discriminate].
    injection Hfire as <-.
    apply (same_timers_ok (mkPage (this pg) w)).
    + exact (run_keeps_timers net _ _ n (callback_keeps_timers _ _)).
    + now apply (take_elapsed_timers_ok pg tm w).
  - apply (same_timers_ok pg); [|exact Hok].
    exact (run_keeps_timers net _ _ n (check_keeps_timers eye pg)).
  - apply (same_timers_ok pg); [|exact Hok].
    exact (run_keeps_timers net _ _ n (pull_keeps_timers eye pg)).
  - apply (same_timers_ok pg); [|exact Hok].
    exact (run_keeps_timers net _ _ n (clearRemote_keeps_timers eye pg)).
  - exact Hok.
Qed.

(** On every page the client reaches from a fresh one, each pending timer
    is the one recorded for its eye: at most one per eye. *)
Lemma reachable_timers_ok (s : SnapshotSync.t) (pg : Page) :
  rtc page_step (mkPage s Window.initial) pg -> timers_ok pg.
Proof.
  intros Hr. revert pg Hr. apply (rtc_ind_r (fun pg => timers_ok pg)).
  - apply initial_timers_ok.
  - intros y z _ Hstep IH. exact (page_step_timers_ok y z Hstep IH).
Qed.

(** C5, as the code has it. A notification that finds a timer armed cancels
    it and arms a new one: after two notifications for an eye, the second
    at time [t1], the only timer armed for the eye is the second one, due
    900 after [t1]; the first one is gone from the queue. *)
Theorem scheduleSave_rearms (eye : Eye) (pg : Page) (t1 : Z) :
  timers_ok pg ->
  Window.armed eye (window (scheduleSave eye pg))
  = [Window.mkTimer (Window.nextHandle (window pg)) (Window.clock (window pg) + 900) eye]
  /\ Window.armed eye (window (scheduleSave eye (at_time t1 (scheduleSave eye pg))))
     = [Window.mkTimer (Window.nextHandle (window pg) + 1)
                       (Z.max (Window.clock (window pg)) t1 + 900) eye].
Proof.
  intros Hok. split; [now apply armed_after_scheduleSave |].
  rewrite armed_after_scheduleSave
    by (apply at_time_timers_ok, scheduleSave_timers_ok, Hok).
  destruct (scheduleSave_window eye pg) as (Hn & Hc & _).
  unfold at_time, Window.advance. cbn [window Window.clock Window.nextHandle].
  rewrite Hn, Hc. reflexivity.
Qed.


(** A poll tick whose HEAD answer carries no tag takes no branch of
    [check]: the HEAD is its only request, nothing is handed to the painter
    and the cached tag stays, whatever the page holds. *)
Theorem check_ignores_absent_tag {N} (net : Request -> N -> net_result * N)
        (eye : Eye) (pg : Page) (n n' : N) (res : Response) :
  net (request "HEAD" eye [] (this pg)) n = (Responded res, n') ->
  truthy (ETag (headers res)) = false ->
  run net (check eye) pg n
  = mkOutcome (Some tt) pg n' [request "HEAD" eye [] (this pg)].
Proof.
  intros Hnet Habsent. unfold check. cbn. rewrite Hnet. cbn.
  destruct (ok res); cbn; [|reflexivity].
  rewrite Habsent. reflexivity.
Qed.

(** C7, as the code has it. There is no staleness check: when the answer to
    a pull arrives with status 200 and a body that decodes, it is drawn on
    the eye and its tag replaces the cached one, whatever the page holds at
    that moment. *)
Theorem pull_applies_any_response {N} (net : Request -> N -> net_result * N)
        (eye : Eye) (pg pg' : Page) (n : N) (res : Response) (bmp : picture) :
  status res = 200 ->
  createImageBitmap (default [] (payload res)) = Some bmp ->
  start_task (pull eye) pg
  = InFlight (request "GET" eye [] (this pg)) pg
             (resume (start_task (pull eye) pg))
  /\ run net (resume (start_task (pull eye) pg) (Responded res)) pg' n
     = mkOutcome (Some tt)
                 (set_etag eye (ETag (headers res))
                    (on_painter (Painter.drawBitmapToEye eye bmp false) pg'))
                 n [].
Proof.
  intros Hst Hbmp. split; [reflexivity |].
  cbn. unfold pull_response. rewrite Hst. cbn. rewrite Hbmp. reflexivity.
Qed.

(** With nothing else queued, the timer a notification arms is the one the
    event loop takes 900 later. *)
Lemma take_elapsed_after_scheduleSave (eye : Eye) (pg : Page) :
  Window.pending (window pg) = [] ->
  Window.take_elapsed
    (Window.advance (Window.clock (window pg) + 900) (window (scheduleSave eye pg)))
  = Some (Window.mkTimer (Window.nextHandle (window pg)) (Window.clock (window pg) + 900) eye,
          Window.mk (Z.max (Window.clock (window pg)) (Window.clock (window pg) + 900))
                    (Window.nextHandle (window pg) + 1) []).
Proof.
  intros Hpending. destruct (scheduleSave_window eye pg) as (Hn & Hc & _).
  unfold Window.take_elapsed, Window.elapsed, Window.advance.
  cbn [Window.pending Window.clock Window.nextHandle].
  rewrite scheduleSave_pending, Hn, Hc.
  assert (match get (timers (this pg)) eye with
          | Some h => Window.pending (Window.clearTimeout h (window pg))
          | None => Window.pending (window pg)
          end = []) as ->.
  { destruct (get (timers (this pg)) eye); simpl; rewrite Hpending; reflexivity. }
  cbn [app]. rewrite filter_cons_True by (simpl; lia).
  cbn [Window.handle]. rewrite filter_cons_False by (simpl; tauto).
  reflexivity.
Qed.

Lemma callback_failed_put {N} (net : Request -> N -> net_result * N)
      (eye : Eye) (pg : Page) (n n' : N) (r : net_result) :
  Painter.isDirty eye (painter (this pg)) = true ->
  get (etag (this pg)) eye <> Some (hashBlob (Painter.exportPNG eye (painter (this pg)))) ->
  net (request "PUT" eye (Painter.exportPNG eye (painter (this pg))) (this pg)) n = (r, n') ->
  failed r ->
  run net (scheduleSave_callback eye) pg n
  = mkOutcome (match r with Rejected => None | Responded _ => Some tt end) pg n'
      [request "PUT" eye (Painter.exportPNG eye (painter (this pg))) (this pg)].
Proof.
  intros Hdirty Htag Hnet Hfail. unfold scheduleSave_callback. cbn.
  rewrite Hdirty. cbn. rewrite bool_decide_eq_false_2 by congruence. cbn.
  rewrite Hnet. destruct r as [|res]; [reflexivity |].
  simpl in Hfail. cbn. rewrite Hfail. reflexivity.
Qed.

Lemma callback_sends_put {N} (net : Request -> N -> net_result * N)
      (eye : Eye) (pg : Page) (n : N) :
  Painter.isDirty eye (painter (this pg)) = true ->
  get (etag (this pg)) eye <> Some (hashBlob (Painter.exportPNG eye (painter (this pg)))) ->
  head (calls (run net (scheduleSave_callback eye) pg n))
  = Some (request "PUT" eye (Painter.exportPNG eye (painter (this pg))) (this pg)).
Proof.
  intros Hdirty Htag. unfold scheduleSave_callback. cbn.
  rewrite Hdirty. cbn. rewrite bool_decide_eq_false_2 by congruence. cbn.
  destruct (net _ n) as [r n']. reflexivity.
Qed.

(** C8. A failed push leaves the eye dirty: when the PUT sent on timer fire
    is rejected or answered with a status outside 200..299, the page is
    exactly as before (the eye still dirty, the cached tag unchanged), and
    the timer armed by the next notification, once it is the one the event
    loop takes, sends the PUT again. *)
Theorem failed_push_stays_dirty {N N2} (net : Request -> N -> net_result * N)
        (net2 : Request -> N2 -> net_result * N2)
        (eye : Eye) (pg : Page) (n n' : N) (n2 : N2) (r : net_result) :
  Painter.isDirty eye (painter (this pg)) = true ->
  get (etag (this pg)) eye <> Some (hashBlob (Painter.exportPNG eye (painter (this pg)))) ->
  net (request "PUT" eye (Painter.exportPNG eye (painter (this pg))) (this pg)) n = (r, n') ->
  failed r ->
  calls (run net (scheduleSave_callback eye) pg n)
  = [request "PUT" eye (Painter.exportPNG eye (painter (this pg))) (this pg)]
  /\ final (run net (scheduleSave_callback eye) pg n) = pg
  /\ (Window.pending (window pg) = [] ->
      exists o,
       fire_timer net2
         (at_time (Window.clock (window pg) + 900)
                  (scheduleSave eye (final (run net (scheduleSave_callback eye) pg n))))
         n2 = Some o
       /\ head (calls o)
          = Some (request "PUT" eye (Painter.exportPNG eye (painter (this pg))) (this pg))).
Proof.
  intros Hdirty Htag Hnet Hfail.
  rewrite (callback_failed_put net eye pg n n' r Hdirty Htag Hnet Hfail).
  cbn [calls final]. split; [reflexivity |]. split; [reflexivity |].
  intros Hpending.
  unfold fire_timer, at_time. cbn [window this].
  rewrite (take_elapsed_after_scheduleSave eye pg Hpending).
  cbn [Window.target]. eexists. split; [reflexivity |].
  assert (this (scheduleSave eye pg)
          = SnapshotSync.mk (baseUrl (this pg)) (etag (this pg))
              (set (timers (this pg)) eye (Some (Window.nextHandle (window pg))))
              (painter (this pg))) as Ethis.
  { unfold scheduleSave. destruct (get (timers (this pg)) eye); reflexivity. }
  rewrite Ethis.
  rewrite callback_sends_put by (cbn [this painter etag]; assumption).
  reflexivity.
Qed.


End Client.

(** ** The examples, run *)

Example holder_state :
  get (SnapshotSync.etag (SnapshotSync.this holder)) left_eye
  = Some "039058c6f2c0cb492c533b0a4d14ef77cc0f78abccced5287d84a1a2011cfb81"%string
  /\ get (Painter.canvas (SnapshotSync.painter (SnapshotSync.this holder))) left_eye
     = [x01; x02; x03]
  /\ PainterRoom.hash [x01; x02; x03]
     = "039058c6f2c0cb492c533b0a4d14ef77cc0f78abccced5287d84a1a2011cfb81"%string.
Proof. vm_compute. repeat split. Qed.

(** C6, at a failing input. The holder caches the tag of 1,2,3 and shows
    them; the left eye has been deleted at the store, whose HEAD answer is
    200 without ETag. The poll tick sends that HEAD and nothing else, and
    leaves the page as it was: the canvas is not cleared and the tag is
    still cached, although [pull] has a branch that clears both on 204. *)
Lemma poll_misses_remote_delete :
  get (SnapshotSync.etag (SnapshotSync.this holder)) left_eye
  = Some (PainterRoom.hash [x01; x02; x03])
  /\ (worker_fetch (store_request "HEAD" left_eye []) 4 env_cleared).1
     = mkResponse 200 (mkHeaders (Some "no-store"%string) None (Some 3) None) None
  /\ calls poll_after_delete = [store_request "HEAD" left_eye []]
  /\ final poll_after_delete = holder
  /\ get (Painter.canvas (SnapshotSync.painter (SnapshotSync.this (final poll_after_delete))))
         left_eye = [x01; x02; x03]
  /\ get (Painter.canvas (SnapshotSync.painter (SnapshotSync.this (final poll_after_delete))))
         left_eye <> blank.
Proof. vm_compute. repeat split. discriminate. Qed.

(** C7 fails on the code. The answer to the pull carries the tag of 1,2,3,
    which the store held before the client's own push of 9,9; when it
    arrives the client caches the tag of 9,9, the store's current one. The
    answer is applied all the same: the canvas goes back to 1,2,3 and the
    cached tag to the older one. *)
Lemma late_answer_is_applied :
  ETag (headers old_answer) = Some (PainterRoom.hash [x01; x02; x03])
  /\ calls pushed = [store_request "PUT" left_eye [x09; x09]]
  /\ get (SnapshotSync.etag (SnapshotSync.this (final pushed))) left_eye
     = Some (PainterRoom.hash [x09; x09])
  /\ ETag (headers (worker_fetch (store_request "HEAD" left_eye []) 4 (network pushed)).1)
     = Some (PainterRoom.hash [x09; x09])
  /\ PainterRoom.hash [x01; x02; x03] <> PainterRoom.hash [x09; x09]
  /\ get (Painter.canvas (SnapshotSync.painter (SnapshotSync.this (final pushed)))) left_eye
     = [x09; x09]
  /\ get (Painter.canvas (SnapshotSync.painter (SnapshotSync.this (final late_delivery))))
         left_eye = [x01; x02; x03]
  /\ get (SnapshotSync.etag (SnapshotSync.this (final late_delivery))) left_eye
     = Some (PainterRoom.hash [x01; x02; x03]).
Proof. vm_compute. repeat split. discriminate. Qed.

(** C5 fails on the code. A timer armed at time 0 is due at 900; a second
    notification at time 500 removes it and arms another, due at 1400.
    Nothing is there to fire at 900. *)
Lemma second_notification_resets_timer :
  Window.armed left_eye (SnapshotSync.window first_notification)
  = [Window.mkTimer 1 900 left_eye]
  /\ Window.armed left_eye (SnapshotSync.window second_notification)
     = [Window.mkTimer 2 1400 left_eye]
  /\ Window.elapsed (SnapshotSync.window (SnapshotSync.at_time 900 second_notification)) = []
  /\ Window.elapsed (SnapshotSync.window (SnapshotSync.at_time 1400 second_notification))
     = [Window.mkTimer 2 1400 left_eye].
Proof. vm_compute. repeat split. Qed.

(** ** The theorems at concrete inputs *)

Lemma put_then_get_witness :
  ETag (headers (PainterRoom.fetch (store_request "PUT" right_eye [x01; x02; x03]) 1
                                   PainterRoom.fresh).1)
  = Some (hex (SHA256.digest [x01; x02; x03]))
  /\ status (PainterRoom.fetch (store_request "GET" right_eye []) 2
               (PainterRoom.fetch (store_request "PUT" right_eye [x01; x02; x03]) 1
                                  PainterRoom.fresh).2).1 = 200
  /\ payload (PainterRoom.fetch (store_request "GET" right_eye []) 2
                (PainterRoom.fetch (store_request "PUT" right_eye [x01; x02; x03]) 1
                                   PainterRoom.fresh).2).1 = Some [x01; x02; x03]
  /\ ETag (headers (PainterRoom.fetch (store_request "GET" right_eye []) 2
                      (PainterRoom.fetch (store_request "PUT" right_eye [x01; x02; x03]) 1
                                         PainterRoom.fresh).2).1)
     = ETag (headers (PainterRoom.fetch (store_request "PUT" right_eye [x01; x02; x03]) 1
                                        PainterRoom.fresh).1).
Proof.
  apply (put_then_get [x01; x02; x03] right_eye
           (store_request "PUT" right_eye [x01; x02; x03])
           (store_request "GET" right_eye []) 1 2 PainterRoom.fresh);
    try reflexivity.
  discriminate.
Defined.

Lemma store_invariant_witness :
  (PainterRoom.etag
     (at_left (PainterRoom.eyes
        (exec [Call (store_request "PUT" left_eye [x01]) 1; Restart;
               Call (store_request "GET" left_eye []) 2] PainterRoom.fresh))) = None
   <-> PainterRoom.bytes
         (at_left (PainterRoom.eyes
            (exec [Call (store_request "PUT" left_eye [x01]) 1; Restart;
                   Call (store_request "GET" left_eye []) 2] PainterRoom.fresh))) = None)
  /\ (PainterRoom.bytes
        (at_left (PainterRoom.eyes
           (exec [Call (store_request "PUT" left_eye [x01]) 1; Restart;
                  Call (store_request "GET" left_eye []) 2] PainterRoom.fresh)))
      = PainterRoom.bytes
          (at_right (PainterRoom.eyes
             (exec [Call (store_request "PUT" right_eye [x01]) 5] PainterRoom.fresh)))
      -> PainterRoom.etag
           (at_left (PainterRoom.eyes
              (exec [Call (store_request "PUT" left_eye [x01]) 1; Restart;
                     Call (store_request "GET" left_eye []) 2] PainterRoom.fresh)))
         = PainterRoom.etag
             (at_right (PainterRoom.eyes
                (exec [Call (store_request "PUT" right_eye [x01]) 5] PainterRoom.fresh)))).
Proof.
  apply (store_invariant
           [Call (store_request "PUT" left_eye [x01]) 1; Restart;
            Call (store_request "GET" left_eye []) 2]
           [Call (store_request "PUT" right_eye [x01]) 5]).
  - apply list_elem_of_here.
  - apply list_elem_of_further, list_elem_of_here.
Defined.

Lemma put_idempotent_witness :
  ETag (headers (PainterRoom.fetch (store_request "PUT" left_eye [x01; x02; x03]) 1
                                   PainterRoom.fresh).1)
  = Some (PainterRoom.hash (body (store_request "PUT" left_eye [x01; x02; x03])))
  /\ Forall (fun res =>
               status res = 204
               /\ ETag (headers res)
                  = ETag (headers (PainterRoom.fetch
                                     (store_request "PUT" left_eye [x01; x02; x03]) 1
                                     PainterRoom.fresh).1))
            (fetch_times (store_request "PUT" left_eye [x01; x02; x03]) [2; 3]
               (PainterRoom.fetch (store_request "PUT" left_eye [x01; x02; x03]) 1
                                  PainterRoom.fresh).2).1
  /\ contents (fetch_times (store_request "PUT" left_eye [x01; x02; x03]) [2; 3]
                 (PainterRoom.fetch (store_request "PUT" left_eye [x01; x02; x03]) 1
                                    PainterRoom.fresh).2).2
     = contents (PainterRoom.fetch (store_request "PUT" left_eye [x01; x02; x03]) 1
                                   PainterRoom.fresh).2.
Proof.
  apply (put_idempotent (store_request "PUT" left_eye [x01; x02; x03]) 1 [2; 3]
                        PainterRoom.fresh).
  reflexivity.
Defined.

Lemma interface_defaults_witness :
  PainterRoom.fetch (mkRequest "DELETE" "/api/canvas" [("eye", "both")]%string None []) 7
                    env_painted_room
  = PainterRoom.fetch
      (to_left (mkRequest "DELETE" "/api/canvas" [("eye", "both")]%string None [])) 7
      env_painted_room
  /\ at_left (PainterRoom.eyes
       (PainterRoom.fetch (mkRequest "DELETE" "/api/canvas" [("eye", "both")]%string None [])
                          7 env_painted_room).2)
     = PainterRoom.mkEyeState None None 7
  /\ (PAINTER_ROOM
        (worker_fetch (mkRequest "DELETE" "/api/canvas" [("eye", "both")]%string None []) 7
                      env_painted).2
      !! "global"%string)
     = Some (PainterRoom.fetch
               (mkRequest "DELETE" "/api/canvas" [("eye", "both")]%string None []) 7
               env_painted_room).2.
Proof.
  destruct (interface_defaults
              (mkRequest "DELETE" "/api/canvas" [("eye", "both")]%string None []) 7
              env_painted_room env_painted) as [Heye Hroom].
  destruct Heye as (Hsame & _ & Hdel & _); [discriminate | discriminate |].
  split; [exact Hsame |]. split.
  - rewrite Hdel by reflexivity. reflexivity.
  - rewrite Hroom by reflexivity. vm_compute. reflexivity.
Defined.

Lemma push_suppressed_witness :
  exists o,
    SnapshotSync.fire_timer (serve 5) idle_stroke env_painted = Some o
    /\ calls o = []
    /\ network o = env_painted
    /\ final o
       = SnapshotSync.on_painter
           (Painter.markSaved (Window.target (Window.mkTimer 1 900 left_eye)))
           (SnapshotSync.mkPage (SnapshotSync.this idle_stroke) (Window.mk 900 2 []))
    /\ Painter.isDirty (Window.target (Window.mkTimer 1 900 left_eye))
                       (SnapshotSync.painter (SnapshotSync.this (final o))) = false.
Proof.
  apply (push_suppressed (B := sample_browser) (serve 5) idle_stroke env_painted
                         (Window.mkTimer 1 900 left_eye) (Window.mk 900 2 []));
    vm_compute; reflexivity.
Defined.

Lemma scheduleSave_rearms_witness :
  Window.armed left_eye (SnapshotSync.window (SnapshotSync.scheduleSave left_eye sample_page))
  = [Window.mkTimer (Window.nextHandle (SnapshotSync.window sample_page))
                    (Window.clock (SnapshotSync.window sample_page) + 900) left_eye]
  /\ Window.armed left_eye
       (SnapshotSync.window
          (SnapshotSync.scheduleSave left_eye
             (SnapshotSync.at_time 500 (SnapshotSync.scheduleSave left_eye sample_page))))
     = [Window.mkTimer (Window.nextHandle (SnapshotSync.window sample_page) + 1)
                       (Z.max (Window.clock (SnapshotSync.window sample_page)) 500 + 900)
                       left_eye].
Proof.
  apply (scheduleSave_rearms (B := sample_browser) left_eye sample_page 500).
  intros tm Hin. simpl in Hin. apply elem_of_nil in Hin. destruct Hin.
Defined.

Lemma check_ignores_absent_tag_witness :
  run (serve 4) (SnapshotSync.check left_eye) holder env_cleared
  = mkOutcome (Some tt) holder
      (worker_fetch (store_request "HEAD" left_eye []) 4 env_cleared).2
      [SnapshotSync.request "HEAD" left_eye [] (SnapshotSync.this holder)].
Proof.
  apply (check_ignores_absent_tag (B := sample_browser) (serve 4) left_eye holder env_cleared
           (worker_fetch (store_request "HEAD" left_eye []) 4 env_cleared).2
           (worker_fetch (store_request "HEAD" left_eye []) 4 env_cleared).1);
    vm_compute; reflexivity.
Defined.

Lemma pull_applies_any_response_witness :
  start_task (SnapshotSync.pull left_eye) sample_page
  = InFlight (SnapshotSync.request "GET" left_eye [] (SnapshotSync.this sample_page))
             sample_page (resume (start_task (SnapshotSync.pull left_eye) sample_page))
  /\ run (serve 4)
         (resume (start_task (SnapshotSync.pull left_eye) sample_page) (Responded old_answer))
         (final pushed) (network pushed)
     = mkOutcome (Some tt)
         (SnapshotSync.set_etag left_eye (ETag (headers old_answer))
            (SnapshotSync.on_painter
               (Painter.drawBitmapToEye (B := sample_browser) left_eye [x01; x02; x03] false)
               (final pushed)))
         (network pushed) [].
Proof.
  apply (pull_applies_any_response (B := sample_browser) (serve 4) left_eye sample_page
           (final pushed) (network pushed) old_answer [x01; x02; x03]);
    vm_compute; reflexivity.
Defined.

Lemma failed_push_stays_dirty_witness :
  calls (run scripted (SnapshotSync.scheduleSave_callback left_eye) about_to_push [Rejected])
  = [SnapshotSync.request "PUT" left_eye
       (Painter.exportPNG left_eye (SnapshotSync.painter (SnapshotSync.this about_to_push)))
       (SnapshotSync.this about_to_push)]
  /\ final (run scripted (SnapshotSync.scheduleSave_callback left_eye) about_to_push
                [Rejected])
     = about_to_push
  /\ (Window.pending (SnapshotSync.window about_to_push) = [] ->
      exists o,
        SnapshotSync.fire_timer (serve 5)
          (SnapshotSync.at_time (Window.clock (SnapshotSync.window about_to_push) + 900)
             (SnapshotSync.scheduleSave left_eye
                (final (run scripted (SnapshotSync.scheduleSave_callback left_eye)
                            about_to_push [Rejected]))))
          env_painted = Some o
        /\ head (calls o)
           = Some (SnapshotSync.request "PUT" left_eye
                     (Painter.exportPNG left_eye
                        (SnapshotSync.painter (SnapshotSync.this about_to_push)))
                     (SnapshotSync.this about_to_push))).
Proof.
  apply (failed_push_stays_dirty (B := sample_browser) scripted (serve 5) left_eye
           about_to_push [Rejected] [] env_painted Rejected).
  - reflexivity.
  - vm_compute. discriminate.
  - reflexivity.
  - exact I.
Defined.


(** * More of the store *)

Lemma load_load (r : PainterRoom.t) : PainterRoom.load (PainterRoom.load r) = PainterRoom.load r.
Proof.
  unfold PainterRoom.load at 2. destruct (PainterRoom.storage r) as [saved|] eqn:Es.
  - unfold PainterRoom.load. simpl. rewrite Es. reflexivity.
  - unfold PainterRoom.load. rewrite Es. reflexivity.
Qed.

Lemma loaded_idem (r : PainterRoom.t) : loaded (loaded r) = loaded r.
Proof.
  unfold loaded at 2.
  destruct (PainterRoom.absent (PainterRoom.bytes (at_left (PainterRoom.eyes r)))
            && PainterRoom.absent (PainterRoom.bytes (at_right (PainterRoom.eyes r)))) eqn:E.
  - unfold loaded. rewrite E.
    match goal with |- context [if ?c then _ else _] => destruct c end;
      [apply load_load | reflexivity].
  - unfold loaded. rewrite E. reflexivity.
Qed.

Lemma fetch_loaded (req : Request) (now : Z) (r : PainterRoom.t) :
  PainterRoom.fetch req now (loaded r) = PainterRoom.fetch req now r.
Proof.
  unfold PainterRoom.fetch. fold (loaded (loaded r)). fold (loaded r).
  rewrite loaded_idem. reflexivity.
Qed.

Lemma loaded_written (es : PerEye PainterRoom.EyeState) :
  loaded (PainterRoom.mk es (Some es)) = PainterRoom.mk es (Some es).
Proof. unfold loaded, PainterRoom.load. simpl. destruct (_ && _); reflexivity. Qed.

(** What a request other than PUT and DELETE leaves behind. *)
Lemma fetch_read_state (req : Request) (now : Z) (r : PainterRoom.t) :
  method req <> "PUT"%string -> method req <> "DELETE"%string ->
  (PainterRoom.fetch req now r).2 = loaded r.
Proof.
  intros Hp Hd. unfold PainterRoom.fetch. fold (loaded r).
  apply String.eqb_neq in Hp, Hd. rewrite Hp, Hd.
  repeat match goal with |- context [if ?c then _ else _] => destruct c end;
    reflexivity.
Qed.

(** What a PUT or DELETE leaves behind: the replica written into the loaded
    room, memory and storage alike. *)
Lemma fetch_write_state (req : Request) (now : Z) (r : PainterRoom.t) :
  method req = "PUT"%string \/ method req = "DELETE"%string ->
  exists v,
    (PainterRoom.fetch req now r).2
    = let es := set (PainterRoom.eyes (loaded r))
                    (PainterRoom.parse_eye (searchParams_get "eye" (searchParams req))) v in
      PainterRoom.mk es (Some es).
Proof.
  intros [Hm | Hm]; unfold PainterRoom.fetch; fold (loaded r); rewrite Hm; simpl;
    eexists; reflexivity.
Qed.

(** X1. A request that is neither PUT nor DELETE (a GET, a HEAD, a method
    the store refuses) is transparent: whatever request comes next is
    answered, and leaves the room, exactly as if the first had never been
    sent. *)
Theorem reads_are_transparent (req1 req2 : Request) (t1 t2 : Z) (r : PainterRoom.t) :
  method req1 <> "PUT"%string -> method req1 <> "DELETE"%string ->
  PainterRoom.fetch req2 t2 (PainterRoom.fetch req1 t1 r).2 = PainterRoom.fetch req2 t2 r.
Proof.
  intros Hp Hd. rewrite (fetch_read_state req1 t1 r Hp Hd). apply fetch_loaded.
Qed.

Lemma loaded_backed (r : PainterRoom.t) : backed r -> backed (loaded r).
Proof.
  unfold backed, loaded, PainterRoom.load. intros H.
  destruct (_ && _); [|exact H].
  destruct (PainterRoom.storage r) as [saved|] eqn:Es; simpl; [now left | now rewrite Es].
Qed.

Lemma fetch_backed (req : Request) (now : Z) (r : PainterRoom.t) :
  backed r -> backed (PainterRoom.fetch req now r).2.
Proof.
  intros H.
  destruct (String.eqb_spec (method req) "PUT") as [Hp | Hp].
  { destruct (fetch_write_state req now r (or_introl Hp)) as [v ->]. simpl. now left. }
  destruct (String.eqb_spec (method req) "DELETE") as [Hd | Hd].
  { destruct (fetch_write_state req now r (or_intror Hd)) as [v ->]. simpl. now left. }
  rewrite fetch_read_state by assumption. now apply loaded_backed.
Qed.

Lemma restart_backed (r : PainterRoom.t) : backed r -> backed (PainterRoom.restart r).
Proof.
  unfold backed, PainterRoom.restart. simpl. intros _.
  destruct (PainterRoom.storage r); [now right | reflexivity].
Qed.

Lemma exec_backed (ops : list room_op) (r : PainterRoom.t) : backed r -> backed (exec ops r).
Proof.
  revert r. induction ops as [|op ops IH]; intros r H; [exact H |].
  apply IH. destruct op; [now apply fetch_backed | now apply restart_backed].
Qed.

Lemma loaded_restart (r : PainterRoom.t) :
  backed r -> loaded (PainterRoom.restart r) = loaded r.
Proof.
  destruct r as [es st]. unfold backed, loaded, PainterRoom.restart, PainterRoom.load.
  simpl. destruct st as [saved|]; simpl.
  - intros [-> | ->]; simpl.
    + destruct (_ && _); reflexivity.
    + reflexivity.
  - intros ->. reflexivity.
Qed.

(** X2. A restart of the object cannot be observed: in every state the room
    reaches from the fresh one, a request that arrives after the runtime has
    dropped and rebuilt the object is answered, and leaves the room, exactly
    as if the object had stayed in memory. *)
Theorem restart_is_unobservable (ops : list room_op) (req : Request) (now : Z) :
  PainterRoom.fetch req now (PainterRoom.restart (exec ops PainterRoom.fresh))
  = PainterRoom.fetch req now (exec ops PainterRoom.fresh).
Proof.
  rewrite <- (fetch_loaded req now (PainterRoom.restart _)).
  rewrite <- (fetch_loaded req now (exec ops PainterRoom.fresh)).
  rewrite loaded_restart; [reflexivity |].
  apply exec_backed. reflexivity.
Qed.

(** X3. The eyes are independent: a PUT or DELETE on one eye does not change
    the answer to any request on the other eye. *)
Theorem write_leaves_other_eye (w rd : Request) (t1 t2 : Z) (r : PainterRoom.t) :
  method w = "PUT"%string \/ method w = "DELETE"%string ->
  PainterRoom.parse_eye (searchParams_get "eye" (searchParams w))
  <> PainterRoom.parse_eye (searchParams_get "eye" (searchParams rd)) ->
  (PainterRoom.fetch rd t2 (PainterRoom.fetch w t1 r).2).1 = (PainterRoom.fetch rd t2 r).1.
Proof.
  intros Hw Hne. destruct (fetch_write_state w t1 r Hw) as [v ->]. cbv zeta.
  rewrite <- (fetch_loaded rd t2 r).
  unfold PainterRoom.fetch.
  fold (loaded (PainterRoom.mk
                  (set (PainterRoom.eyes (loaded r))
                       (PainterRoom.parse_eye (searchParams_get "eye" (searchParams w))) v)
                  (Some (set (PainterRoom.eyes (loaded r))
                       (PainterRoom.parse_eye (searchParams_get "eye" (searchParams w))) v)))).
  fold (loaded (loaded r)).
  rewrite loaded_written, loaded_idem. cbn [PainterRoom.eyes].
  rewrite (get_set_other _ _ _ v Hne).
  repeat match goal with |- context [if ?c then _ else _] => destruct c end;
    reflexivity.
Qed.

(** X4. Conditional no-op: right after a PUT, a GET or HEAD for the same eye
    whose If-None-Match is the tag the PUT returned is answered 304 with no
    body, the same ETag and the PUT's instant as Last-Modified (when that
    instant is not 0), and the room is left as the PUT left it. *)
Theorem not_modified_after_put (put rd : Request) (t1 t2 : Z) (r : PainterRoom.t) :
  method put = "PUT"%string ->
  method rd = "GET"%string \/ method rd = "HEAD"%string ->
  PainterRoom.parse_eye (searchParams_get "eye" (searchParams rd))
  = PainterRoom.parse_eye (searchParams_get "eye" (searchParams put)) ->
  if_none_match rd = Some (PainterRoom.hash (body put)) ->
  PainterRoom.fetch rd t2 (PainterRoom.fetch put t1 r).2
  = (mkResponse 304
       (mkHeaders (Some "no-store"%string) (Some (PainterRoom.hash (body put)))
                  (if t1 =? 0 then None else Some t1) None)
       None,
     (PainterRoom.fetch put t1 r).2).
Proof.
  intros Hput Hrd Hk Hinm. destruct (fetch_put put t1 r Hput) as [base ->].
  cbv zeta. simpl snd. unfold PainterRoom.fetch. rewrite Hk, Hinm.
  cbn [PainterRoom.eyes]. rewrite no_reload_after_set.
  cbn [PainterRoom.eyes]. rewrite get_set_same.
  cbn [PainterRoom.etag PainterRoom.bytes PainterRoom.updatedAt].
  rewrite hash_truthy, bool_decide_eq_true_2 by reflexivity.
  destruct Hrd as [-> | ->]; simpl; destruct (t1 =? 0); reflexivity.
Qed.

(** X5. Delete clears: right after a DELETE, a GET for the same eye is
    answered 204 and a HEAD 200, both without body, without ETag and without
    Content-Type, whatever If-None-Match they carry; Last-Modified is the
    instant of the DELETE (when not 0). The room is left as the DELETE left
    it. *)
Theorem read_after_delete (del rd : Request) (t1 t2 : Z) (r : PainterRoom.t) :
  method del = "DELETE"%string ->
  method rd = "GET"%string \/ method rd = "HEAD"%string ->
  PainterRoom.parse_eye (searchParams_get "eye" (searchParams rd))
  = PainterRoom.parse_eye (searchParams_get "eye" (searchParams del)) ->
  PainterRoom.fetch rd t2 (PainterRoom.fetch del t1 r).2
  = (mkResponse (if (method rd =? "GET")%string then 204 else 200)
       (mkHeaders (Some "no-store"%string) None (if t1 =? 0 then None else Some t1) None)
       None,
     (PainterRoom.fetch del t1 r).2).
Proof.
  intros Hdel Hrd Hk.
  assert (exists base,
            (PainterRoom.fetch del t1 r).2
            = let es := set base
                          (PainterRoom.parse_eye (searchParams_get "eye" (searchParams del)))
                          (PainterRoom.mkEyeState None None t1) in
              PainterRoom.mk es (Some es)) as [base ->].
  { unfold PainterRoom.fetch. rewrite Hdel. simpl. eexists. reflexivity. }
  cbv zeta. rewrite <- (fetch_loaded rd t2). rewrite loaded_written.
  unfold PainterRoom.fetch. rewrite Hk.
  fold (loaded (PainterRoom.mk
                  (set base (PainterRoom.parse_eye (searchParams_get "eye" (searchParams del)))
                       (PainterRoom.mkEyeState None None t1))
                  (Some (set base
                       (PainterRoom.parse_eye (searchParams_get "eye" (searchParams del)))
                       (PainterRoom.mkEyeState None None t1))))).
  rewrite loaded_written. cbn [PainterRoom.eyes]. rewrite get_set_same.
  cbn [PainterRoom.etag PainterRoom.bytes PainterRoom.updatedAt truthy].
  rewrite andb_false_r. simpl andb.
  destruct Hrd as [-> | ->]; simpl; destruct (t1 =? 0); reflexivity.
Qed.

(** * More of the worker *)

(** X6. Rooms are isolated and created on first use: a request under
    /api/canvas is answered by the object of its room (a fresh one when the
    room is new), which is then registered under the room's name; every
    other room and the asset handler are left as they were. *)
Theorem worker_touches_one_room (req : Request) (now : Z) (env : Env) :
  String.prefix "/api/canvas" (pathname req) = true ->
  (worker_fetch req now env).1
  = (PainterRoom.fetch req now
       (default PainterRoom.fresh (PAINTER_ROOM env !! room_of req))).1
  /\ PAINTER_ROOM (worker_fetch req now env).2 !! room_of req
     = Some (PainterRoom.fetch req now
               (default PainterRoom.fresh (PAINTER_ROOM env !! room_of req))).2
  /\ (forall name, name <> room_of req ->
        PAINTER_ROOM (worker_fetch req now env).2 !! name = PAINTER_ROOM env !! name)
  /\ ASSETS (worker_fetch req now env).2 = ASSETS env.
Proof.
  intros Hp. unfold worker_fetch. rewrite Hp. cbv zeta.
  destruct (PainterRoom.fetch req now _) as [res stub']. simpl.
  repeat split.
  - apply lookup_insert_eq.
  - intros name Hne. apply lookup_insert_ne. congruence.
Qed.

Lemma worker_touches_one_room_witness :
  (worker_fetch (mkRequest "PUT" "/api/canvas" [("room", "r1"); ("eye", "left")]%string
                           None [x01; x02; x03]) 8 env_painted).1
  = (PainterRoom.fetch (mkRequest "PUT" "/api/canvas" [("room", "r1"); ("eye", "left")]%string
                                  None [x01; x02; x03]) 8 PainterRoom.fresh).1
  /\ PAINTER_ROOM
       (worker_fetch (mkRequest "PUT" "/api/canvas" [("room", "r1"); ("eye", "left")]%string
                                None [x01; x02; x03]) 8 env_painted).2
     !! "global"%string
     = Some env_painted_room.
Proof.
  destruct (worker_touches_one_room
              (mkRequest "PUT" "/api/canvas" [("room", "r1"); ("eye", "left")]%string
                         None [x01; x02; x03]) 8 env_painted) as (H1 & _ & H3 & _).
  - reflexivity.
  - split.
    + rewrite H1. reflexivity.
    + rewrite H3 by discriminate. vm_compute. reflexivity.
Defined.

(** * More of the tag *)

Lemma unhex_pair (b : byte) (s : string) :
  unhex (padStart 2 (toString16 b) +:+ s) = (cons b) <$> unhex s.
Proof. destruct b; reflexivity. Qed.

Lemma unhex_hex (bs : list byte) : unhex (hex bs) = Some bs.
Proof.
  unfold hex. induction bs as [|b bs IH]; [reflexivity |].
  rewrite map_cons, join_empty_cons, unhex_pair, IH. reflexivity.
Qed.

Lemma hex_injective (bs bs' : list byte) : hex bs = hex bs' -> bs = bs'.
Proof.
  intros H. pose proof (unhex_hex bs) as E. rewrite H, unhex_hex in E. congruence.
Qed.

(** X7. The hex encoding loses nothing: the tag the client computes for
    bytes [a] equals the tag the store computes for bytes [b] exactly when
    the two SHA-256 digests are equal, so a push is suppressed, and a poll
    stays quiet, only when the digests agree. *)
Theorem tags_equal_iff_digests_equal (a b : list byte) :
  SnapshotSync.hashBlob a = PainterRoom.hash b <-> SHA256.digest a = SHA256.digest b.
Proof.
  split.
  - apply hex_injective.
  - intros E. unfold SnapshotSync.hashBlob, PainterRoom.hash. now rewrite E.
Qed.

(** * More of the sync client *)

Section ClientAndStore.
Context `{B : Browser}.
Import SnapshotSync.

Lemma parse_eye_name (eye : Eye) :
  PainterRoom.parse_eye (searchParams_get "eye" [("eye"%string, eye_name eye)]) = eye.
Proof. destruct eye; reflexivity. Qed.

(** The worker's answer to a request of a client whose [baseUrl] is ''. *)
Lemma serve_request (m : string) (eye : Eye) (data : list byte) (s : SnapshotSync.t)
      (now : Z) (env : Env) :
  baseUrl s = ""%string ->
  serve now (request m eye data s) env
  = let stub := default PainterRoom.fresh (PAINTER_ROOM env !! "global"%string) in
    (Responded (PainterRoom.fetch (store_request m eye data) now stub).1,
     mkEnv (<["global"%string := (PainterRoom.fetch (store_request m eye data) now stub).2]>
              (PAINTER_ROOM env))
           (ASSETS env)).
Proof.
  intros Hb. unfold serve, worker_fetch, request. rewrite Hb.
  change ("" +:+ "/api/canvas")%string with "/api/canvas"%string.
  change (mkRequest m "/api/canvas" [("eye"%string, eye_name eye)] None data)
    with (store_request m eye data).
  change (String.prefix "/api/canvas" (pathname (store_request m eye data))) with true.
  change (room_of (store_request m eye data)) with "global"%string.
  cbv iota zeta. destruct (PainterRoom.fetch _ now _) as [res stub']. reflexivity.
Qed.

Lemma store_put (eye : Eye) (data : list byte) (now : Z) (r : PainterRoom.t) :
  exists base,
    PainterRoom.fetch (store_request "PUT" eye data) now r
    = let es := set base eye
                    (PainterRoom.mkEyeState (Some data) (Some (PainterRoom.hash data)) now) in
      (mkResponse 204 (mkHeaders None (Some (PainterRoom.hash data)) None None) None,
       PainterRoom.mk es (Some es)).
Proof.
  destruct (fetch_put (store_request "PUT" eye data) now r eq_refl) as [base E].
  exists base. rewrite E. cbn [store_request searchParams body]. rewrite parse_eye_name.
  reflexivity.
Qed.

(** The whole outcome of a push sent to the worker. *)
Lemma push_run (eye : Eye) (pg : Page) (now : Z) (env : Env) :
  baseUrl (this pg) = ""%string ->
  Painter.isDirty eye (painter (this pg)) = true ->
  get (etag (this pg)) eye <> Some (hashBlob (Painter.exportPNG eye (painter (this pg)))) ->
  exists base,
    run (serve now) (scheduleSave_callback eye) pg env
    = let blob := Painter.exportPNG eye (painter (this pg)) in
      let es := set base eye
                    (PainterRoom.mkEyeState (Some blob) (Some (PainterRoom.hash blob)) now) in
      mkOutcome (Some tt)
        (on_painter (Painter.markSaved eye) (set_etag eye (Some (PainterRoom.hash blob)) pg))
        (mkEnv (<["global"%string := PainterRoom.mk es (Some es)]> (PAINTER_ROOM env))
               (ASSETS env))
        [store_request "PUT" eye blob].
Proof.
  intros Hb Hdirty Htag. unfold scheduleSave_callback. cbn.
  rewrite Hdirty. cbn. rewrite bool_decide_eq_false_2 by congruence. cbn.
  rewrite (serve_request "PUT" eye _ (this pg) now env Hb). cbv zeta.
  destruct (store_put eye (Painter.exportPNG eye (painter (this pg))) now
              (default PainterRoom.fresh (PAINTER_ROOM env !! "global"%string)))
    as [base ->].
  exists base. cbn. unfold request. rewrite Hb. reflexivity.
Qed.

(** X8. A push reaches the store: when the timer of a dirty eye fires, the
    cached tag differs from the hash of the canvas and the worker is
    reachable under baseUrl '', the callback sends one PUT with the exported
    bytes; afterwards the room 'global' holds these bytes with their hash
    and the instant of the PUT, in memory and in storage, and the client
    caches that hash and has marked the eye clean. *)
Theorem push_reaches_store (eye : Eye) (pg : Page) (now : Z) (env : Env) :
  baseUrl (this pg) = ""%string ->
  Painter.isDirty eye (painter (this pg)) = true ->
  get (etag (this pg)) eye <> Some (hashBlob (Painter.exportPNG eye (painter (this pg)))) ->
  calls (run (serve now) (scheduleSave_callback eye) pg env)
  = [store_request "PUT" eye (Painter.exportPNG eye (painter (this pg)))]
  /\ final (run (serve now) (scheduleSave_callback eye) pg env)
     = on_painter (Painter.markSaved eye)
         (set_etag eye (Some (hashBlob (Painter.exportPNG eye (painter (this pg))))) pg)
  /\ exists room,
       PAINTER_ROOM (network (run (serve now) (scheduleSave_callback eye) pg env))
       !! "global"%string = Some room
       /\ get (PainterRoom.eyes room) eye
          = PainterRoom.mkEyeState
              (Some (Painter.exportPNG eye (painter (this pg))))
              (Some (PainterRoom.hash (Painter.exportPNG eye (painter (this pg))))) now
       /\ PainterRoom.storage room = Some (PainterRoom.eyes room).
Proof.
  intros Hb Hdirty Htag. destruct (push_run eye pg now env Hb Hdirty Htag) as [base ->].
  cbv zeta. cbn [calls final network PAINTER_ROOM]. repeat split.
  eexists. split; [apply lookup_insert_eq |]. split; [apply get_set_same | reflexivity].
Qed.

(** What the store answers to the reads of a client when the eye holds
    bytes [b] under a non-empty tag. *)
Lemma store_read (m : string) (eye : Eye) (now : Z) (r : PainterRoom.t)
      (b : list byte) (tag : string) (t : Z) :
  get (PainterRoom.eyes r) eye = PainterRoom.mkEyeState (Some b) (Some tag) t ->
  tag <> ""%string ->
  m = "GET"%string \/ m = "HEAD"%string ->
  PainterRoom.fetch (store_request m eye []) now r
  = (mkResponse 200
       (mkHeaders (Some "no-store"%string) (Some tag) (if t =? 0 then None else Some t)
                  (if (m =? "GET")%string then Some "image/png"%string else None))
       (if (m =? "GET")%string then Some b else None),
     r).
Proof.
  intros Hs Htag Hm. unfold PainterRoom.fetch.
  cbn [store_request searchParams method if_none_match]. rewrite parse_eye_name.
  assert (PainterRoom.absent (PainterRoom.bytes (at_left (PainterRoom.eyes r)))
          && PainterRoom.absent (PainterRoom.bytes (at_right (PainterRoom.eyes r))) = false)
    as ->.
  { destruct eye; simpl in Hs; rewrite Hs; simpl; [reflexivity | apply andb_false_r]. }
  rewrite Hs. cbn [PainterRoom.etag PainterRoom.bytes PainterRoom.updatedAt].
  assert (truthy (Some tag) = true) as ->.
  { simpl. destruct (String.eqb_spec tag ""); [contradiction | reflexivity]. }
  destruct Hm as [-> | ->]; simpl; destruct (t =? 0); reflexivity.
Qed.

(** X9. No echo: on the poll tick that follows a successful push, the store
    reports the tag the client has just cached; the tick sends its HEAD and
    nothing else, and leaves the page and the store as they were. *)
Theorem poll_after_push_is_quiet (eye : Eye) (pg : Page) (t1 t2 : Z) (env : Env) :
  baseUrl (this pg) = ""%string ->
  Painter.isDirty eye (painter (this pg)) = true ->
  get (etag (this pg)) eye <> Some (hashBlob (Painter.exportPNG eye (painter (this pg)))) ->
  run (serve t2) (check eye)
      (final (run (serve t1) (scheduleSave_callback eye) pg env))
      (network (run (serve t1) (scheduleSave_callback eye) pg env))
  = mkOutcome (Some tt)
      (final (run (serve t1) (scheduleSave_callback eye) pg env))
      (network (run (serve t1) (scheduleSave_callback eye) pg env))
      [store_request "HEAD" eye []].
Proof.
  intros Hb Hdirty Htag. destruct (push_run eye pg t1 env Hb Hdirty Htag) as [base ->].
  cbv zeta. cbn [final network]. unfold check. cbn.
  rewrite serve_request by exact Hb. cbv zeta. cbn [PAINTER_ROOM].
  rewrite lookup_insert_eq. cbn [default].
  rewrite (store_read "HEAD" eye t2 _ (Painter.exportPNG eye (painter (this pg)))
             (PainterRoom.hash (Painter.exportPNG eye (painter (this pg)))) t1)
    by (try apply get_set_same; try (now right);
        intros E; pose proof (hash_length (Painter.exportPNG eye (painter (this pg)))) as L;
        rewrite E in L; discriminate L).
  cbn. rewrite get_set_same.
  rewrite bool_decide_eq_true_2 by reflexivity. cbn [negb]. rewrite andb_false_r. cbn.
  rewrite insert_insert_eq. unfold request. rewrite Hb. reflexivity.
Qed.

Lemma set_etag_twice (eye : Eye) (v w : option string) (f : Painter.t -> Painter.t) (pg : Page) :
  set_etag eye w (on_painter f (set_etag eye v pg)) = set_etag eye w (on_painter f pg).
Proof. unfold set_etag, on_painter. simpl. rewrite set_set. reflexivity. Qed.

(** The whole outcome of a tick that finds a new tag at the worker. *)
Lemma check_run_remote_change (eye : Eye) (pg : Page) (now : Z) (env : Env)
        (room : PainterRoom.t) (b : list byte) (tag : string) (t : Z) (bmp : picture) :
  baseUrl (this pg) = ""%string ->
  PAINTER_ROOM env !! "global"%string = Some room ->
  get (PainterRoom.eyes room) eye = PainterRoom.mkEyeState (Some b) (Some tag) t ->
  tag <> ""%string ->
  get (etag (this pg)) eye <> Some tag ->
  createImageBitmap b = Some bmp ->
  run (serve now) (check eye) pg env
  = mkOutcome (Some tt)
      (set_etag eye (Some tag) (on_painter (Painter.drawBitmapToEye eye bmp false) pg))
      env
      [store_request "HEAD" eye []; store_request "GET" eye []].
Proof.
  intros Hb Hroom Hs Htag Hne Hbmp. unfold check. cbn.
  rewrite serve_request by exact Hb. cbv zeta. rewrite Hroom.
  change (default PainterRoom.fresh (Some room)) with room.
  rewrite (store_read "HEAD" eye now room b tag t Hs Htag) by now right.
  cbn. assert (negb (tag =? "")%string = true) as ->.
  { destruct (String.eqb_spec tag ""); [contradiction | reflexivity]. }
  rewrite bool_decide_eq_false_2 by congruence. cbn.
  rewrite serve_request by exact Hb. cbv zeta. cbn [PAINTER_ROOM].
  rewrite lookup_insert_eq.
  change (default PainterRoom.fresh (Some room)) with room.
  rewrite (store_read "GET" eye now room b tag t Hs Htag) by now left.
  cbn. unfold pull_response. cbn. rewrite Hbmp. cbn.
  rewrite insert_insert_eq, (insert_id _ _ _ Hroom).
  unfold request. rewrite Hb. rewrite set_etag_twice. destruct env. reflexivity.
Qed.

(** X10. A poll tick brings a client in line with the store: when the room
    'global' holds bytes [b] for the eye under a tag other than the cached
    one, and [b] decodes, the tick sends a HEAD and a GET, draws the decoded
    image on the eye, marks it clean and caches the store's tag; the store
    is left untouched. *)
Theorem poll_pulls_remote_change (eye : Eye) (pg : Page) (now : Z) (env : Env)
        (room : PainterRoom.t) (b : list byte) (tag : string) (t : Z) (bmp : picture) :
  baseUrl (this pg) = ""%string ->
  PAINTER_ROOM env !! "global"%string = Some room ->
  get (PainterRoom.eyes room) eye = PainterRoom.mkEyeState (Some b) (Some tag) t ->
  tag <> ""%string ->
  get (etag (this pg)) eye <> Some tag ->
  createImageBitmap b = Some bmp ->
  run (serve now) (check eye) pg env
  = mkOutcome (Some tt)
      (set_etag eye (Some tag) (on_painter (Painter.drawBitmapToEye eye bmp false) pg))
      env
      [store_request "HEAD" eye []; store_request "GET" eye []].
Proof. apply check_run_remote_change. Qed.

(** X11. A change whose pull fails is not pulled again: when the HEAD of a
    tick reports a new tag but the GET that follows cannot be applied
    (rejected, an unexpected status, a body that is no image), the new tag
    is cached all the same and the canvas keeps the old content; a later
    tick that gets the same HEAD answer sends nothing further. *)
Theorem failed_pull_is_not_retried {N N2} (net : Request -> N -> net_result * N)
        (net2 : Request -> N2 -> net_result * N2)
        (eye : Eye) (pg : Page) (n n1 n2 : N) (m m' : N2)
        (head : Response) (tag : string) (g : net_result) :
  net (request "HEAD" eye [] (this pg)) n = (Responded head, n1) ->
  ok head = true -> ETag (headers head) = Some tag -> tag <> ""%string ->
  get (etag (this pg)) eye <> Some tag ->
  net (request "GET" eye [] (this pg)) n1 = (g, n2) ->
  unusable g ->
  net2 (request "HEAD" eye [] (this pg)) m = (Responded head, m') ->
  final (run net (check eye) pg n) = set_etag eye (Some tag) pg
  /\ calls (run net (check eye) pg n)
     = [request "HEAD" eye [] (this pg); request "GET" eye [] (this pg)]
  /\ run net2 (check eye) (final (run net (check eye) pg n)) m
     = mkOutcome (Some tt) (set_etag eye (Some tag) pg) m' [request "HEAD" eye [] (this pg)].
Proof.
  intros Hhead Hok Htag Hne Hcached Hget Hbad Hhead2.
  assert (negb (tag =? "")%string = true) as Htruthy.
  { destruct (String.eqb_spec tag ""); [contradiction | reflexivity]. }
  assert (run net (check eye) pg n
          = mkOutcome (match g with
                       | Rejected => None
                       | Responded res => if status res =? 200 then None else Some tt
                       end)
                      (set_etag eye (Some tag) pg) n2
                      [request "HEAD" eye [] (this pg); request "GET" eye [] (this pg)]) as E.
  { unfold check. cbn. rewrite Hhead. cbn. rewrite Hok. cbn. rewrite Htag. cbn.
    rewrite Htruthy, bool_decide_eq_false_2 by congruence. cbn.
    change (request "GET" eye [] _) with (request "GET" eye [] (this pg)).
    rewrite Hget. destruct g as [|res]; [reflexivity |].
    cbn. unfold pull_response. simpl in Hbad.
    destruct Hbad as [[Hst Hdec] | [H200 H204]].
    - rewrite Hst. cbn. rewrite Hdec. reflexivity.
    - apply Z.eqb_neq in H200 as E200. apply Z.eqb_neq in H204 as E204.
      rewrite E200, E204. reflexivity. }
  rewrite E. cbn [final calls]. split; [reflexivity |]. split; [reflexivity |].
  unfold check. cbn.
  change (request "HEAD" eye [] _) with (request "HEAD" eye [] (this pg)).
  rewrite Hhead2. cbn. rewrite Hok. cbn. rewrite Htag. cbn.
  rewrite get_set_same, bool_decide_eq_true_2 by reflexivity.
  cbn [negb]. rewrite andb_false_r. reflexivity.
Qed.

(** X12. A pull that cannot be applied changes nothing: when the GET is
    rejected, answered with a status other than 200 and 204, or answered 200
    with a body that is no image, the page is exactly as before, cached tag
    included, and the GET was the only request. *)
Theorem unusable_pull_changes_nothing {N} (net : Request -> N -> net_result * N)
        (eye : Eye) (pg : Page) (n n' : N) (g : net_result) :
  net (request "GET" eye [] (this pg)) n = (g, n') ->
  unusable g ->
  final (run net (pull eye) pg n) = pg
  /\ network (run net (pull eye) pg n) = n'
  /\ calls (run net (pull eye) pg n) = [request "GET" eye [] (this pg)].
Proof.
  intros Hget Hbad. unfold pull. cbn. rewrite Hget.
  destruct g as [|res]; [repeat split |].
  cbn. unfold pull_response. simpl in Hbad.
  destruct Hbad as [[Hst Hdec] | [H200 H204]].
  - rewrite Hst. cbn. rewrite Hdec. repeat split.
  - apply Z.eqb_neq in H200 as E200. apply Z.eqb_neq in H204 as E204.
    rewrite E200, E204. repeat split.
Qed.

(** X13. A pull answered 204 clears the canvas and the cached tag but
    leaves the dirty flag alone: on an eye that was dirty, the next timer
    callback uploads the blank canvas with a PUT. *)
Theorem cleared_dirty_eye_is_pushed {N N2} (net : Request -> N -> net_result * N)
        (net2 : Request -> N2 -> net_result * N2)
        (eye : Eye) (pg : Page) (n n' : N) (m : N2) (res : Response) :
  net (request "GET" eye [] (this pg)) n = (Responded res, n') ->
  status res = 204 ->
  Painter.isDirty eye (painter (this pg)) = true ->
  final (run net (pull eye) pg n)
  = set_etag eye None (on_painter (Painter.clearEye eye false) pg)
  /\ Painter.isDirty eye (painter (this (final (run net (pull eye) pg n)))) = true
  /\ head (calls (run net2 (scheduleSave_callback eye) (final (run net (pull eye) pg n)) m))
     = Some (request "PUT" eye (toBlob blank) (this pg)).
Proof.
  intros Hget Hst Hdirty.
  assert (final (run net (pull eye) pg n)
          = set_etag eye None (on_painter (Painter.clearEye eye false) pg)) as ->.
  { unfold pull. cbn. rewrite Hget. cbn. unfold pull_response. rewrite Hst. reflexivity. }
  split; [reflexivity |]. split; [exact Hdirty |].
  unfold scheduleSave_callback. cbn.
  unfold Painter.isDirty in Hdirty. unfold Painter.isDirty. cbn. rewrite Hdirty. cbn.
  rewrite get_set_same. rewrite bool_decide_eq_false_2 by discriminate. cbn.
  destruct (net2 _ m) as [r m']. cbn.
  unfold Painter.exportPNG. cbn. rewrite get_set_same. reflexivity.
Qed.

(** X14. A pull that is applied discards unsaved strokes: after a 200 answer
    that decodes, the eye shows the pulled image and is marked clean, so the
    timer callback of an earlier stroke sends nothing and changes nothing. *)
Theorem pull_discards_unsaved_strokes {N N2} (net : Request -> N -> net_result * N)
        (net2 : Request -> N2 -> net_result * N2)
        (eye : Eye) (pg : Page) (n n' : N) (m : N2) (res : Response) (bmp : picture) :
  net (request "GET" eye [] (this pg)) n = (Responded res, n') ->
  status res = 200 ->
  createImageBitmap (default [] (payload res)) = Some bmp ->
  get (Painter.canvas (painter (this (final (run net (pull eye) pg n))))) eye = bmp
  /\ Painter.isDirty eye (painter (this (final (run net (pull eye) pg n)))) = false
  /\ run net2 (scheduleSave_callback eye) (final (run net (pull eye) pg n)) m
     = mkOutcome (Some tt) (final (run net (pull eye) pg n)) m [].
Proof.
  intros Hget Hst Hbmp.
  assert (final (run net (pull eye) pg n)
          = set_etag eye (ETag (headers res))
              (on_painter (Painter.drawBitmapToEye eye bmp false) pg)) as ->.
  { unfold pull. cbn. rewrite Hget. cbn. unfold pull_response. rewrite Hst. cbn.
    rewrite Hbmp. reflexivity. }
  assert (Painter.isDirty eye
            (painter (this (set_etag eye (ETag (headers res))
               (on_painter (Painter.drawBitmapToEye eye bmp false) pg)))) = false) as Hclean.
  { unfold Painter.isDirty. cbn. apply get_set_same. }
  split; [cbn; apply get_set_same |]. split; [exact Hclean |].
  unfold scheduleSave_callback, Painter.isDirty. cbn.
  rewrite get_set_same. reflexivity.
Qed.

(** X15. [clearRemote] sends one DELETE. Once the request is answered, with
    whatever status, the cached tag is null and nothing else on the page has
    changed; when the request is rejected the page is as before and the
    cached tag is kept. *)
Theorem clearRemote_outcomes {N} (net : Request -> N -> net_result * N)
        (eye : Eye) (pg : Page) (n n' : N) (g : net_result) :
  net (request "DELETE" eye [] (this pg)) n = (g, n') ->
  run net (clearRemote eye) pg n
  = mkOutcome (match g with Rejected => None | Responded _ => Some tt end)
              (match g with Rejected => pg | Responded _ => set_etag eye None pg end)
              n' [request "DELETE" eye [] (this pg)].
Proof.
  intros Hdel. unfold clearRemote. cbn. rewrite Hdel. destruct g; reflexivity.
Qed.

Lemma store_delete (eye : Eye) (now : Z) (r : PainterRoom.t) :
  exists base,
    PainterRoom.fetch (store_request "DELETE" eye []) now r
    = let es := set base eye (PainterRoom.mkEyeState None None now) in
      (mkResponse 204 no_headers None, PainterRoom.mk es (Some es)).
Proof.
  unfold PainterRoom.fetch. cbn [store_request searchParams method].
  rewrite parse_eye_name. simpl. eexists. reflexivity.
Qed.

(** X16. A click on a clear button, with the worker reachable under baseUrl
    '': the canvas of the eye is blank and marked dirty, one DELETE has been
    sent, the cached tag is null, no timer has been armed, and the room
    'global' holds no bytes and no tag for the eye, in memory and in
    storage, with the instant of the DELETE. *)
Theorem clear_click_reaches_store (eye : Eye) (pg : Page) (now : Z) (env : Env) :
  baseUrl (this pg) = ""%string ->
  calls (run (serve now) (clear_click eye) pg env) = [store_request "DELETE" eye []]
  /\ final (run (serve now) (clear_click eye) pg env)
     = set_etag eye None (on_painter (Painter.clearEye eye true) pg)
  /\ get (Painter.canvas (painter (this (final (run (serve now) (clear_click eye) pg env)))))
         eye = blank
  /\ Painter.isDirty eye (painter (this (final (run (serve now) (clear_click eye) pg env))))
     = true
  /\ window (final (run (serve now) (clear_click eye) pg env)) = window pg
  /\ exists room,
       PAINTER_ROOM (network (run (serve now) (clear_click eye) pg env)) !! "global"%string
       = Some room
       /\ get (PainterRoom.eyes room) eye = PainterRoom.mkEyeState None None now
       /\ PainterRoom.storage room = Some (PainterRoom.eyes room).
Proof.
  intros Hb. unfold clear_click, clearRemote. cbn.
  change (request "DELETE" eye [] _) with (request "DELETE" eye [] (this pg)).
  rewrite (serve_request "DELETE" eye [] (this pg) now env Hb). cbv zeta.
  destruct (store_delete eye now
              (default PainterRoom.fresh (PAINTER_ROOM env !! "global"%string)))
    as [base ->].
  cbn. unfold request, Painter.isDirty. rewrite Hb. cbn. rewrite !get_set_same.
  repeat split.
  eexists. split; [apply lookup_insert_eq |]. split; [apply get_set_same | reflexivity].
Qed.

(** X20. What one client pushes, the next poll tick of another shows: after
    a push of client [a], a tick of a client [p] whose cached tag for the
    eye is not the hash of the pushed bytes draws the decoded bytes on its
    canvas, marks the eye clean and caches the same tag as [a]. *)
Theorem peer_sees_push (eye : Eye) (a p : Page) (t1 t2 : Z) (env : Env) (bmp : picture) :
  baseUrl (this a) = ""%string ->
  baseUrl (this p) = ""%string ->
  Painter.isDirty eye (painter (this a)) = true ->
  get (etag (this a)) eye <> Some (hashBlob (Painter.exportPNG eye (painter (this a)))) ->
  get (etag (this p)) eye <> Some (hashBlob (Painter.exportPNG eye (painter (this a)))) ->
  createImageBitmap (Painter.exportPNG eye (painter (this a))) = Some bmp ->
  final (run (serve t2) (check eye) p
             (network (run (serve t1) (scheduleSave_callback eye) a env)))
  = set_etag eye (Some (hashBlob (Painter.exportPNG eye (painter (this a)))))
      (on_painter (Painter.drawBitmapToEye eye bmp false) p)
  /\ get (etag (this (final (run (serve t2) (check eye) p
                                 (network (run (serve t1) (scheduleSave_callback eye) a env))))))
         eye
     = get (etag (this (final (run (serve t1) (scheduleSave_callback eye) a env)))) eye.
Proof.
  intros Ha Hp Hdirty Htag Hpeer Hbmp.
  destruct (push_run eye a t1 env Ha Hdirty Htag) as [base ->]. cbv zeta. cbn [network final].
  rewrite (check_run_remote_change eye p t2 _
             (PainterRoom.mk
                (set base eye (PainterRoom.mkEyeState
                   (Some (Painter.exportPNG eye (painter (this a))))
                   (Some (PainterRoom.hash (Painter.exportPNG eye (painter (this a))))) t1))
                (Some (set base eye (PainterRoom.mkEyeState
                   (Some (Painter.exportPNG eye (painter (this a))))
                   (Some (PainterRoom.hash (Painter.exportPNG eye (painter (this a))))) t1))))
             (Painter.exportPNG eye (painter (this a)))
             (PainterRoom.hash (Painter.exportPNG eye (painter (this a)))) t1 bmp Hp).
  - cbn [final]. split; [reflexivity |]. cbn. rewrite !get_set_same. reflexivity.
  - apply lookup_insert_eq.
  - apply get_set_same.
  - intros E. pose proof (hash_length (Painter.exportPNG eye (painter (this a)))) as L.
    rewrite E in L. discriminate L.
  - exact Hpeer.
  - exact Hbmp.
Qed.

Lemma set_comm {A} (r : PerEye A) (e1 e2 : Eye) (a b : A) :
  e1 <> e2 -> set (set r e1 a) e2 b = set (set r e2 b) e1 a.
Proof. destruct e1, e2; intros H; try reflexivity; contradiction H; reflexivity. Qed.

(** X21. The pulls of the two eyes do not interfere: when both have been
    started on a page (as the initial pulls are) and their answers arrive,
    the page ends up the same whichever answer is handled first, whatever
    the answers are. *)
Theorem pulls_of_two_eyes_commute {N} (net : Request -> N -> net_result * N)
        (e1 e2 : Eye) (pg : Page) (n : N) (r1 r2 : net_result) :
  e1 <> e2 ->
  final (run net (resume (start_task (pull e2) pg) r2)
             (final (run net (resume (start_task (pull e1) pg) r1) pg n)) n)
  = final (run net (resume (start_task (pull e1) pg) r1)
               (final (run net (resume (start_task (pull e2) pg) r2) pg n)) n).
Proof.
  intros Hne.
  assert (forall e r q,
            final (run net (resume (start_task (pull e) pg) r) q n)
            = match r with
              | Rejected => q
              | Responded res =>
                  if status res =? 200 then
                    match createImageBitmap (default [] (payload res)) with
                    | Some bmp =>
                        set_etag e (ETag (headers res))
                          (on_painter (Painter.drawBitmapToEye e bmp false) q)
                    | None => q
                    end
                  else if status res =? 204 then
                    set_etag e None (on_painter (Painter.clearEye e false) q)
                  else q
              end) as Hrun.
  { intros e r q. destruct r as [|res]; [reflexivity |].
    cbn. unfold pull_response.
    destruct (status res =? 200).
    - cbn. destruct (createImageBitmap _); reflexivity.
    - destruct (status res =? 204); reflexivity. }
  rewrite !Hrun.
  destruct r1 as [|res1], r2 as [|res2]; try reflexivity.
  destruct pg as [[bu et tm [d c]] w].
  unfold set_etag, on_painter, Painter.drawBitmapToEye, Painter.clearEye.
  destruct (status res1 =? 200), (status res2 =? 200),
    (createImageBitmap (default [] (payload res1))),
    (createImageBitmap (default [] (payload res2))),
    (status res1 =? 204), (status res2 =? 204);
    cbn; rewrite ?(set_comm _ e1 e2) by exact Hne; reflexivity.
Qed.

End ClientAndStore.

(** * More of the debounce timers *)

Section Timers.
Context `{B : Browser}.
Import SnapshotSync.

Lemma notify_all_window (eye : Eye) (ts : list Z) (pg : Page) :
  Window.nextHandle (window (notify_all eye ts pg))
  = Window.nextHandle (window pg) + Z.of_nat (length ts)
  /\ Window.clock (window (notify_all eye ts pg))
     = fold_left Z.max ts (Window.clock (window pg)).
Proof.
  revert pg. induction ts as [|t ts IH]; intros pg; cbn [notify_all fold_left length].
  - split; [lia | reflexivity].
  - destruct (IH (scheduleSave eye (at_time t pg))) as [-> ->].
    destruct (scheduleSave_window eye (at_time t pg)) as (-> & -> & _).
    unfold at_time, Window.advance. cbn [window Window.nextHandle Window.clock].
    split; [lia | reflexivity].
Qed.

Lemma notify_all_timers_ok (eye : Eye) (ts : list Z) (pg : Page) :
  timers_ok pg -> timers_ok (notify_all eye ts pg).
Proof.
  revert pg. induction ts as [|t ts IH]; intros pg Hok; [exact Hok |].
  apply IH, scheduleSave_timers_ok, at_time_timers_ok, Hok.
Qed.

(** X17. Debounce coalescing: after any number of notifications for an eye,
    at whatever instants, exactly one timer is armed for that eye; it is the
    one the last notification created and it is due 900 after the latest of
    those instants. *)
Theorem notifications_coalesce (eye : Eye) (ts : list Z) (pg : Page) :
  timers_ok pg ->
  ts <> [] ->
  Window.armed eye (window (notify_all eye ts pg))
  = [Window.mkTimer (Window.nextHandle (window pg) + Z.of_nat (length ts) - 1)
                    (fold_left Z.max ts (Window.clock (window pg)) + 900) eye].
Proof.
  revert pg. induction ts as [|t ts IH]; intros pg Hok Hne; [contradiction |].
  destruct ts as [|t' ts].
  - cbn [notify_all fold_left length].
    rewrite armed_after_scheduleSave by now apply at_time_timers_ok.
    unfold at_time, Window.advance. cbn [window Window.nextHandle Window.clock].
    f_equal. f_equal. lia.
  - change (notify_all eye (t :: t' :: ts) pg)
      with (notify_all eye (t' :: ts) (scheduleSave eye (at_time t pg))).
    rewrite IH by (try discriminate; apply scheduleSave_timers_ok, at_time_timers_ok, Hok).
    destruct (scheduleSave_window eye (at_time t pg)) as (-> & -> & _).
    unfold at_time, Window.advance. cbn [window Window.nextHandle Window.clock].
    cbn [fold_left length]. f_equal. f_equal. lia.
Qed.

(** X18. Timers are single-shot: when the event loop takes an elapsed timer
    and runs its callback, whatever the network answers, the page is left
    with the queue as it was without that timer, and no timer is armed any
    more for the eye of the timer. *)
Theorem fired_timer_is_gone {N} (net : Request -> N -> net_result * N)
        (pg : Page) (n : N) (tm : Window.Timer) (w : Window.t) :
  timers_ok pg ->
  Window.take_elapsed (window pg) = Some (tm, w) ->
  exists o,
    fire_timer net pg n = Some o
    /\ window (final o) = w
    /\ Window.pending w
       = filter (fun tm' => Window.handle tm' <> Window.handle tm) (Window.pending (window pg))
    /\ Window.armed (Window.target tm) (window (final o)) = [].
Proof.
  intros Hok Htake. unfold fire_timer. rewrite Htake. eexists. split; [reflexivity |].
  destruct (run_keeps_timers net (scheduleSave_callback (Window.target tm))
              (mkPage (this pg) w) n (callback_keeps_timers _ _)) as [Hw _].
  cbn [window] in Hw. rewrite Hw. split; [reflexivity |].
  unfold Window.take_elapsed in Htake.
  destruct (Window.elapsed (window pg)) as [|tm0 l] eqn:El; [discriminate |].
  injection Htake as -> <-. cbn [Window.pending]. split; [reflexivity |].
  assert (tm ∈ Window.pending (window pg)) as Hin.
  { assert (tm ∈ Window.elapsed (window pg)) as He by (rewrite El; apply list_elem_of_here).
    unfold Window.elapsed in He. apply list_elem_of_filter in He as [_ He]. exact He. }
  unfold Window.armed. cbn [Window.pending].
  apply elem_of_nil_inv. intros tm' Htm'.
  apply list_elem_of_filter in Htm' as [Ht Htm'].
  apply list_elem_of_filter in Htm' as [Hne Hin'].
  destruct (Hok tm Hin) as [_ Hrec]. destruct (Hok tm' Hin') as [_ Hrec'].
  rewrite Ht, Hrec in Hrec'. injection Hrec' as E. apply Hne. symmetry. exact E.
Qed.

Lemma filter_filter_implied {A} (P Q : A -> Prop) `{!forall x, Decision (P x)}
      `{!forall x, Decision (Q x)} (l : list A) :
  (forall x, x ∈ l -> P x -> Q x) -> filter P (filter Q l) = filter P l.
Proof.
  induction l as [|x l IH]; intros HPQ; [reflexivity |].
  assert (forall y, y ∈ l -> P y -> Q y) as HPQ' by (intros y Hy; apply HPQ; now right).
  destruct (decide (Q x)) as [Hq | Hq].
  - rewrite (filter_cons_True Q) by exact Hq.
    destruct (decide (P x)) as [Hp | Hp].
    + rewrite !(filter_cons_True P) by exact Hp. now rewrite IH.
    + rewrite !(filter_cons_False P) by exact Hp. now apply IH.
  - rewrite (filter_cons_False Q) by exact Hq.
    rewrite (filter_cons_False P); [now apply IH |].
    intros Hp. apply Hq, HPQ; [now left | exact Hp].
Qed.

Lemma scheduleSave_recorded_ok (eye : Eye) (pg : Page) :
  recorded_ok pg -> recorded_ok (scheduleSave eye pg).
Proof.
  intros [Hlt Hd]. destruct (scheduleSave_window eye pg) as (Hn & _ & Ht).
  unfold recorded_ok. rewrite Hn, Ht. split.
  - intros e h. destruct (decide (eye = e)) as [<- | Hne].
    + rewrite get_set_same. intros [= <-]. lia.
    + rewrite get_set_other by exact Hne. intros He. specialize (Hlt e h He). lia.
  - intros h. destruct eye; simpl; intros Hl Hr.
    + injection Hl as <-. specialize (Hlt right_eye _ Hr). lia.
    + injection Hr as <-. specialize (Hlt left_eye _ Hl). lia.
Qed.

Lemma same_timers_recorded_ok (pg pg' : Page) :
  same_timers pg pg' -> recorded_ok pg -> recorded_ok pg'.
Proof. intros [Hw Ht] H. unfold recorded_ok. rewrite Hw, Ht. exact H. Qed.

Lemma page_step_recorded_ok (pg pg' : Page) :
  page_step pg pg' -> recorded_ok pg -> recorded_ok pg'.
Proof.
  intros Hstep Hok. destruct Hstep as [eye pg | now pg | N net n pg o Hfire
                                     | N net n eye pg | N net n eye pg | N net n eye pg | f pg].
  - now apply scheduleSave_recorded_ok.
  - exact Hok.
  - unfold fire_timer in Hfire.
    destruct (Window.take_elapsed (window pg)) as [[tm w]|] eqn:E; [|discriminate].
    injection Hfire as <-.
    apply (same_timers_recorded_ok (mkPage (this pg) w)).
    + exact (run_keeps_timers net _ _ n (callback_keeps_timers _ _)).
    + unfold Window.take_elapsed in E.
      destruct (Window.elapsed (window pg)); [discriminate |].
      injection E as _ <-. exact Hok.
  - apply (same_timers_recorded_ok pg); [|exact Hok].
    exact (run_keeps_timers net _ _ n (check_keeps_timers eye pg)).
  - apply (same_timers_recorded_ok pg); [|exact Hok].
    exact (run_keeps_timers net _ _ n (pull_keeps_timers eye pg)).
  - apply (same_timers_recorded_ok pg); [|exact Hok].
    exact (run_keeps_timers net _ _ n (clearRemote_keeps_timers eye pg)).
  - exact Hok.
Qed.

Lemma reachable_recorded_ok (s : SnapshotSync.t) (pg : Page) :
  timers s = mkPerEye None None ->
  rtc page_step (mkPage s Window.initial) pg -> recorded_ok pg.
Proof.
  intros Hs Hr. revert pg Hr. apply (rtc_ind_r (fun pg => recorded_ok pg)).
  - unfold recorded_ok. cbn [this window]. rewrite Hs. split.
    + intros [] h; discriminate.
    + intros h; discriminate.
  - intros y z _ Hstep IH. exact (page_step_recorded_ok y z Hstep IH).
Qed.

(** X19. The eyes debounce independently: on every page the client reaches
    from a newly constructed one, a notification for one eye leaves the
    timers armed for the other eye exactly as they were. *)
Theorem notification_leaves_other_eye (baseUrl0 : string) (p0 : Painter.t)
        (pg : Page) (eye eye' : Eye) :
  rtc page_step (mkPage (SnapshotSync.new baseUrl0 p0) Window.initial) pg ->
  eye <> eye' ->
  Window.armed eye' (window (scheduleSave eye pg)) = Window.armed eye' (window pg).
Proof.
  intros Hr Hne.
  pose proof (reachable_timers_ok _ pg Hr) as Hok.
  pose proof (reachable_recorded_ok (SnapshotSync.new baseUrl0 p0) pg eq_refl Hr) as [_ Hd].
  unfold Window.armed. rewrite scheduleSave_pending, filter_app.
  rewrite filter_cons_False by (cbn; congruence).
  rewrite filter_nil, app_nil_r.
  destruct (get (timers (this pg)) eye) as [h|] eqn:Eh; [|reflexivity].
  cbn [Window.clearTimeout Window.pending].
  apply filter_filter_implied. intros tm Hin Ht Hh.
  destruct (Hok tm Hin) as [_ Hrec]. rewrite Ht, Hh in Hrec.
  destruct eye, eye'; try contradiction; simpl in Eh, Hrec.
  - exact (Hd h Eh Hrec).
  - exact (Hd h Hrec Eh).
Qed.

End Timers.

(** * The further theorems at concrete inputs *)

Lemma reads_are_transparent_witness :
  PainterRoom.fetch (store_request "GET" left_eye []) 6
    (PainterRoom.fetch (store_request "HEAD" left_eye []) 5 env_painted_room).2
  = PainterRoom.fetch (store_request "GET" left_eye []) 6 env_painted_room.
Proof.
  apply (reads_are_transparent (store_request "HEAD" left_eye [])
           (store_request "GET" left_eye []) 5 6 env_painted_room); discriminate.
Defined.

Lemma write_leaves_other_eye_witness :
  (PainterRoom.fetch (store_request "GET" left_eye []) 6
     (PainterRoom.fetch (store_request "DELETE" right_eye []) 5 env_painted_room).2).1
  = (PainterRoom.fetch (store_request "GET" left_eye []) 6 env_painted_room).1.
Proof.
  apply (write_leaves_other_eye (store_request "DELETE" right_eye [])
           (store_request "GET" left_eye []) 5 6 env_painted_room).
  - right. reflexivity.
  - vm_compute. discriminate.
Defined.

Lemma not_modified_after_put_witness :
  PainterRoom.fetch
    (mkRequest "HEAD" "/api/canvas" [("eye", "left")]%string
               (Some (PainterRoom.hash [x01; x02; x03])) []) 2
    (PainterRoom.fetch (store_request "PUT" left_eye [x01; x02; x03]) 1 PainterRoom.fresh).2
  = (mkResponse 304
       (mkHeaders (Some "no-store"%string)
          (Some (PainterRoom.hash (body (store_request "PUT" left_eye [x01; x02; x03]))))
          (if 1 =? 0 then None else Some 1) None)
       None,
     (PainterRoom.fetch (store_request "PUT" left_eye [x01; x02; x03]) 1 PainterRoom.fresh).2).
Proof.
  apply (not_modified_after_put (store_request "PUT" left_eye [x01; x02; x03])
           (mkRequest "HEAD" "/api/canvas" [("eye", "left")]%string
                      (Some (PainterRoom.hash [x01; x02; x03])) []) 1 2 PainterRoom.fresh).
  - reflexivity.
  - right. reflexivity.
  - reflexivity.
  - reflexivity.
Defined.

Lemma read_after_delete_witness :
  PainterRoom.fetch (store_request "GET" left_eye []) 4
    (PainterRoom.fetch (store_request "DELETE" left_eye []) 3 env_painted_room).2
  = (mkResponse (if (method (store_request "GET" left_eye []) =? "GET")%string
                 then 204 else 200)
       (mkHeaders (Some "no-store"%string) None (if 3 =? 0 then None else Some 3) None)
       None,
     (PainterRoom.fetch (store_request "DELETE" left_eye []) 3 env_painted_room).2).
Proof.
  apply (read_after_delete (store_request "DELETE" left_eye [])
           (store_request "GET" left_eye []) 3 4 env_painted_room).
  - reflexivity.
  - left. reflexivity.
  - reflexivity.
Defined.

Lemma push_reaches_store_witness :
  calls (run (serve 5) (SnapshotSync.scheduleSave_callback left_eye) about_to_push env_painted)
  = [store_request "PUT" left_eye
       (Painter.exportPNG left_eye (SnapshotSync.painter (SnapshotSync.this about_to_push)))].
Proof.
  apply (push_reaches_store (B := sample_browser) left_eye about_to_push 5 env_painted).
  - reflexivity.
  - reflexivity.
  - vm_compute. discriminate.
Defined.

Lemma poll_after_push_is_quiet_witness :
  run (serve 6) (SnapshotSync.check left_eye)
      (final (run (serve 5) (SnapshotSync.scheduleSave_callback left_eye)
                  about_to_push env_painted))
      (network (run (serve 5) (SnapshotSync.scheduleSave_callback left_eye)
                    about_to_push env_painted))
  = mkOutcome (Some tt)
      (final (run (serve 5) (SnapshotSync.scheduleSave_callback left_eye)
                  about_to_push env_painted))
      (network (run (serve 5) (SnapshotSync.scheduleSave_callback left_eye)
                    about_to_push env_painted))
      [store_request "HEAD" left_eye []].
Proof.
  apply (poll_after_push_is_quiet (B := sample_browser) left_eye about_to_push 5 6 env_painted).
  - reflexivity.
  - reflexivity.
  - vm_compute. discriminate.
Defined.

Lemma poll_pulls_remote_change_witness :
  run (serve 2) (SnapshotSync.check left_eye) sample_page env_painted
  = mkOutcome (Some tt)
      (SnapshotSync.set_etag left_eye (Some (PainterRoom.hash [x01; x02; x03]))
         (SnapshotSync.on_painter
            (Painter.drawBitmapToEye (B := sample_browser) left_eye [x01; x02; x03] false)
            sample_page))
      env_painted
      [store_request "HEAD" left_eye []; store_request "GET" left_eye []].
Proof.
  apply (poll_pulls_remote_change (B := sample_browser) left_eye sample_page 2 env_painted
           env_painted_room [x01; x02; x03] (PainterRoom.hash [x01; x02; x03]) 1
           [x01; x02; x03]).
  - reflexivity.
  - vm_compute. reflexivity.
  - vm_compute. reflexivity.
  - vm_compute. discriminate.
  - discriminate.
  - reflexivity.
Defined.

Lemma failed_pull_is_not_retried_witness :
  final (run scripted (SnapshotSync.check left_eye) sample_page
             [Responded (mkResponse 200 (mkHeaders None (Some "abc"%string) None None) None);
              Rejected])
  = SnapshotSync.set_etag left_eye (Some "abc"%string) sample_page.
Proof.
  apply (failed_pull_is_not_retried (B := sample_browser) scripted scripted left_eye
           sample_page
           [Responded (mkResponse 200 (mkHeaders None (Some "abc"%string) None None) None);
            Rejected]
           [Rejected] []
           [Responded (mkResponse 200 (mkHeaders None (Some "abc"%string) None None) None)]
           []
           (mkResponse 200 (mkHeaders None (Some "abc"%string) None None) None)
           "abc"%string Rejected).
  - reflexivity.
  - reflexivity.
  - reflexivity.
  - discriminate.
  - discriminate.
  - reflexivity.
  - exact I.
  - reflexivity.
Defined.

Lemma unusable_pull_changes_nothing_witness :
  final (run scripted (SnapshotSync.pull left_eye) holder
             [Responded (mkResponse 500 no_headers None)])
  = holder.
Proof.
  apply (unusable_pull_changes_nothing (B := sample_browser) scripted left_eye holder
           [Responded (mkResponse 500 no_headers None)] []
           (Responded (mkResponse 500 no_headers None))).
  - reflexivity.
  - right. split; discriminate.
Defined.

Lemma cleared_dirty_eye_is_pushed_witness :
  final (run (serve 4) (SnapshotSync.pull left_eye) about_to_push env_cleared)
  = SnapshotSync.set_etag left_eye None
      (SnapshotSync.on_painter (Painter.clearEye left_eye false) about_to_push).
Proof.
  apply (cleared_dirty_eye_is_pushed (B := sample_browser) (serve 4) scripted left_eye
           about_to_push env_cleared
           (worker_fetch (store_request "GET" left_eye []) 4 env_cleared).2 []
           (worker_fetch (store_request "GET" left_eye []) 4 env_cleared).1).
  - vm_compute. reflexivity.
  - vm_compute. reflexivity.
  - reflexivity.
Defined.

Lemma pull_discards_unsaved_strokes_witness :
  get (Painter.canvas
         (SnapshotSync.painter
            (SnapshotSync.this
               (final (run (serve 2) (SnapshotSync.pull left_eye) about_to_push env_painted)))))
      left_eye
  = [x01; x02; x03].
Proof.
  apply (pull_discards_unsaved_strokes (B := sample_browser) (serve 2) scripted left_eye
           about_to_push env_painted
           (worker_fetch (store_request "GET" left_eye []) 2 env_painted).2 []
           old_answer [x01; x02; x03]).
  - vm_compute. reflexivity.
  - vm_compute. reflexivity.
  - vm_compute. reflexivity.
Defined.

Lemma clearRemote_outcomes_witness :
  run scripted (SnapshotSync.clearRemote left_eye) holder
      [Responded (mkResponse 500 no_headers None)]
  = mkOutcome (Some tt) (SnapshotSync.set_etag left_eye None holder) []
      [SnapshotSync.request "DELETE" left_eye [] (SnapshotSync.this holder)].
Proof.
  apply (clearRemote_outcomes (B := sample_browser) scripted left_eye holder
           [Responded (mkResponse 500 no_headers None)] []
           (Responded (mkResponse 500 no_headers None))).
  reflexivity.
Defined.

Lemma clear_click_reaches_store_witness :
  calls (run (serve 3) (clear_click left_eye) holder env_painted)
  = [store_request "DELETE" left_eye []].
Proof.
  apply (clear_click_reaches_store (B := sample_browser) left_eye holder 3 env_painted).
  reflexivity.
Defined.

Lemma notifications_coalesce_witness :
  Window.armed left_eye (SnapshotSync.window (notify_all left_eye [0; 500; 700] sample_page))
  = [Window.mkTimer
       (Window.nextHandle (SnapshotSync.window sample_page)
        + Z.of_nat (length [0; 500; 700]) - 1)
       (fold_left Z.max [0; 500; 700] (Window.clock (SnapshotSync.window sample_page)) + 900)
       left_eye].
Proof.
  apply (notifications_coalesce (B := sample_browser) left_eye [0; 500; 700] sample_page).
  - intros tm Hin. simpl in Hin. apply elem_of_nil in Hin. destruct Hin.
  - discriminate.
Defined.

Lemma fired_timer_is_gone_witness :
  exists o,
    SnapshotSync.fire_timer (serve 5) idle_stroke env_painted = Some o
    /\ SnapshotSync.window (final o) = Window.mk 900 2 []
    /\ Window.pending (Window.mk 900 2 [])
       = filter (fun tm' => Window.handle tm' <> Window.handle (Window.mkTimer 1 900 left_eye))
                (Window.pending (SnapshotSync.window idle_stroke))
    /\ Window.armed (Window.target (Window.mkTimer 1 900 left_eye))
                    (SnapshotSync.window (final o)) = [].
Proof.
  apply (fired_timer_is_gone (B := sample_browser) (serve 5) idle_stroke env_painted
           (Window.mkTimer 1 900 left_eye) (Window.mk 900 2 [])).
  - intros tm Hin. vm_compute in Hin. apply list_elem_of_singleton in Hin. subst tm.
    vm_compute. split; reflexivity.
  - vm_compute. reflexivity.
Defined.

Lemma notification_leaves_other_eye_witness :
  Window.armed right_eye
    (SnapshotSync.window
       (SnapshotSync.scheduleSave left_eye (SnapshotSync.scheduleSave right_eye sample_page)))
  = Window.armed right_eye
      (SnapshotSync.window (SnapshotSync.scheduleSave right_eye sample_page)).
Proof.
  apply (notification_leaves_other_eye (B := sample_browser) "" Painter.initial
           (SnapshotSync.scheduleSave right_eye sample_page) left_eye right_eye).
  - apply rtc_once. apply (step_notify right_eye sample_page).
  - discriminate.
Defined.

Lemma peer_sees_push_witness :
  final (run (serve 6) (SnapshotSync.check left_eye) sample_page
             (network (run (serve 5) (SnapshotSync.scheduleSave_callback left_eye)
                           about_to_push env_painted)))
  = SnapshotSync.set_etag left_eye
      (Some (SnapshotSync.hashBlob
               (Painter.exportPNG left_eye
                  (SnapshotSync.painter (SnapshotSync.this about_to_push)))))
      (SnapshotSync.on_painter
         (Painter.drawBitmapToEye (B := sample_browser) left_eye [x07] false) sample_page).
Proof.
  apply (peer_sees_push (B := sample_browser) left_eye about_to_push sample_page 5 6
           env_painted [x07]).
  - reflexivity.
  - reflexivity.
  - reflexivity.
  - vm_compute. discriminate.
  - discriminate.
  - reflexivity.
Defined.

Lemma pulls_of_two_eyes_commute_witness :
  final (run (serve 2)
             (resume (start_task (SnapshotSync.pull right_eye) sample_page) Rejected)
             (final (run (serve 2)
                         (resume (start_task (SnapshotSync.pull left_eye) sample_page)
                                 (Responded old_answer))
                         sample_page env_painted))
             env_painted)
  = final (run (serve 2)
               (resume (start_task (SnapshotSync.pull left_eye) sample_page)
                       (Responded old_answer))
               (final (run (serve 2)
                           (resume (start_task (SnapshotSync.pull right_eye) sample_page)
                                   Rejected)
                           sample_page env_painted))
               env_painted).
Proof.
  apply (pulls_of_two_eyes_commute (B := sample_browser) (serve 2) left_eye right_eye
           sample_page env_painted (Responded old_answer) Rejected).
  discriminate.
Defined.

Lemma tags_equal_iff_digests_equal_witness :
  SnapshotSync.hashBlob [x01; x02; x03] = PainterRoom.hash [x01; x02; x03]
  <-> SHA256.digest [x01; x02; x03] = SHA256.digest [x01; x02; x03].
Proof. apply (tags_equal_iff_digests_equal [x01; x02; x03] [x01; x02; x03]). Defined.
